(** * PaperRadar: the conference intelligence pipeline

    A shallow embedding of the decision logic of [paper_radar]
    ([ccf_monitor.py], [db.py], [collector.py], [llm_mcp.py],
    [code_verifier.py], [workflow.py]) and the properties of its
    specification.

    Conventions of the embedding.
    - Python [str] is [string]; [upper]/[lower] act on the ASCII letters.
    - Python [int] is [Z].  SQLite INTEGER columns hold 64-bit integers;
      the embedding is meant for keys and years in that range.
    - A Python call that may raise returns [res A]: [Ok a] for a normal
      return, [Error e] for a raised exception [e].
    - The SQLite file is a record of tables ([database]); every helper of
      [db.py] opens, commits and closes its own connection, so each one is a
      function from [database] to [database].
    - The network (GitHub, the language-model collaborator) and the clock are
      oracles passed as arguments. *)

From Stdlib Require Import ZArith Lia Ascii.
From stdpp Require Import base option list gmap strings.

Local Open Scope Z_scope.

(** ** Python values and exceptions *)

Inductive exn : Type :=
  | OverflowError
  | TypeError
  | AttributeError
  | IndexError
  | KeyError
  | ValueError
  | RequestException
  | InterfaceError.

Abbreviation res A := (result A exn).

Module Py.

(** [str.upper] / [str.lower] on one ASCII character. *)
Definition upper_ascii (c : ascii) : ascii :=
  let n := nat_of_ascii c in
  if ((97 <=? n) && (n <=? 122))%nat then ascii_of_nat (n - 32) else c.

Definition lower_ascii (c : ascii) : ascii :=
  let n := nat_of_ascii c in
  if ((65 <=? n) && (n <=? 90))%nat then ascii_of_nat (n + 32) else c.

Fixpoint upper (s : string) : string :=
  match s with
  | EmptyString => EmptyString
  | String c r => String (upper_ascii c) (upper r)
  end.

Fixpoint lower (s : string) : string :=
  match s with
  | EmptyString => EmptyString
  | String c r => String (lower_ascii c) (lower r)
  end.

(** [s.replace(c, by)] for a one-character pattern [c]: every occurrence
    is replaced. *)
Fixpoint replace (c : ascii) (by_ : string) (s : string) : string :=
  match s with
  | EmptyString => EmptyString
  | String a r =>
      if Ascii.eqb a c then by_ +:+ replace c by_ r
      else String a (replace c by_ r)
  end.

(** Truth value of a [str]: the empty string is falsy. *)
Definition truthy_str (s : string) : bool :=
  match s with EmptyString => false | _ => true end.

(** Truth value of an [Optional[str]]. *)
Definition truthy_ostr (o : option string) : bool :=
  match o with Some s => truthy_str s | None => false end.

(** [s.endswith(suffix)]. *)
Fixpoint endswith (s suffix : string) : bool :=
  if String.eqb s suffix then true
  else match s with
       | EmptyString => false
       | String _ r => endswith r suffix
       end.

(** A Python value as it comes out of [json.loads] or sits in a record
    [dict]: [None], [bool], [int], [str], [list], [dict].  A [dict] is
    the list of its items in insertion order, keys distinct.  JSON numbers
    are integers in this model. *)
#[local] Set Warnings "-register-all".
Inductive pyval : Type :=
  | JNull
  | JBool (b : bool)
  | JNum (n : Z)
  | JStr (s : string)
  | JArr (items : list pyval)
  | JObj (fields : list (string * pyval)).
#[local] Set Warnings "register-all".

(** [bool(v)]. *)
Definition truthy (v : pyval) : bool :=
  match v with
  | JNull => false
  | JBool b => b
  | JNum n => negb (n =? 0)
  | JStr s => truthy_str s
  | JArr l => match l with [] => false | _ => true end
  | JObj l => match l with [] => false | _ => true end
  end.

(** [a or b]. *)
Definition py_or (a b : pyval) : pyval := if truthy a then a else b.

Fixpoint assoc (k : string) (l : list (string * pyval)) : option pyval :=
  match l with
  | [] => None
  | (k', v) :: r => if String.eqb k' k then Some v else assoc k r
  end.

(** [d.get(k, dflt)]: only a [dict] has the method. *)
Definition get (d : pyval) (k : string) (dflt : pyval) : res pyval :=
  match d with
  | JObj l => Ok (default dflt (assoc k l))
  | _ => Error AttributeError
  end.

(** [d[k]]: a missing key is a [KeyError], a string, number or [None]
    indexed by a string a [TypeError]. *)
Definition getitem (d : pyval) (k : string) : res pyval :=
  match d with
  | JObj l => match assoc k l with Some v => Ok v | None => Error KeyError end
  | _ => Error TypeError
  end.

Fixpoint chars (s : string) : list pyval :=
  match s with
  | EmptyString => []
  | String c r => JStr (String c EmptyString) :: chars r
  end.

(** What [for x in v] ranges over: the elements of a list, the keys of a
    dict, the characters of a string; anything else is not iterable. *)
Definition iter (v : pyval) : res (list pyval) :=
  match v with
  | JArr l => Ok l
  | JObj l => Ok (map (fun kv => JStr (fst kv)) l)
  | JStr s => Ok (chars s)
  | _ => Error TypeError
  end.

Definition is_space (c : ascii) : bool :=
  let n := nat_of_ascii c in ((n =? 32) || ((9 <=? n) && (n <=? 13)))%nat.

Fixpoint lstrip (s : string) : string :=
  match s with
  | String c r => if is_space c then lstrip r else s
  | EmptyString => EmptyString
  end.

(** [s.rstrip()] when [p] is [is_space], [s.rstrip(c)] when [p] tests for
    the character [c]. *)
Fixpoint rstrip_where (p : ascii -> bool) (s : string) : string :=
  match s with
  | EmptyString => EmptyString
  | String c r =>
      match rstrip_where p r with
      | EmptyString => if p c then EmptyString else String c EmptyString
      | r' => String c r'
      end
  end.

Definition digit_of (c : ascii) : option Z :=
  let n := nat_of_ascii c in
  if ((48 <=? n) && (n <=? 57))%nat then Some (Z.of_nat (n - 48)) else None.

(** Decimal digits with single underscores between them, as [int(str)]
    accepts; [prev_digit] tells whether the previous character was one. *)
Fixpoint int_digits (prev_digit : bool) (acc : Z) (s : string) : option Z :=
  match s with
  | EmptyString => if prev_digit then Some acc else None
  | String c r =>
      match digit_of c with
      | Some v => int_digits true (acc * 10 + v) r
      | None =>
          if Ascii.eqb c "_" && prev_digit
          then match r with
               | String c' _ =>
                   match digit_of c' with
                   | Some _ => int_digits false acc r
                   | None => None
                   end
               | EmptyString => None
               end
          else None
      end
  end.

Definition int_of_string (s : string) : option Z :=
  match rstrip_where is_space (lstrip s) with
  | String c r =>
      if Ascii.eqb c "-" then Z.opp <$> int_digits false 0 r
      else if Ascii.eqb c "+" then int_digits false 0 r
      else int_digits false 0 (String c r)
  | EmptyString => None
  end.

(** [int(v)]. *)
Definition int (v : pyval) : res Z :=
  match v with
  | JNum n => Ok n
  | JBool b => Ok (if b then 1 else 0)
  | JStr s => match int_of_string s with
              | Some n => Ok n
              | None => Error ValueError
              end
  | _ => Error TypeError
  end.

(** [str.split(sep)] for a non-empty separator: [skip] counts the
    characters of a matched separator still to pass, [cur] is the piece
    being read. *)
Fixpoint split_aux (sep : string) (skip : nat) (cur : string) (s : string)
  : list string :=
  match s with
  | EmptyString => [cur]
  | String c r =>
      match skip with
      | S k => split_aux sep k cur r
      | O =>
          if String.prefix sep s
          then cur :: split_aux sep (String.length sep - 1) EmptyString r
          else split_aux sep O (cur +:+ String c EmptyString) r
      end
  end.

Definition split (sep s : string) : list string :=
  split_aux sep O EmptyString s.

(** [s[:n]]. *)
Fixpoint take_str (n : nat) (s : string) : string :=
  match n, s with
  | S k, String c r => String c (take_str k r)
  | _, _ => EmptyString
  end.

(** [needle in s]. *)
Fixpoint contains (needle s : string) : bool :=
  if String.prefix needle s then true
  else match s with
       | EmptyString => false
       | String _ r => contains needle r
       end.

End Py.

(** ** [datetime]: dates, datetimes and the ISO parser *)

Module Datetime.

(** A [date] is represented by its proleptic Gregorian ordinal
    ([date.toordinal()]): day 1 is 0001-01-01.  Python compares dates and
    adds [timedelta]s through this number. *)
Definition date := Z.

Definition MAXORDINAL : Z := 3652059.   (* date(9999, 12, 31).toordinal() *)

Definition is_leap (y : Z) : bool :=
  (y mod 4 =? 0) && (negb (y mod 100 =? 0) || (y mod 400 =? 0)).

Definition days_before_year (y : Z) : Z :=
  let p := y - 1 in p * 365 + p / 4 - p / 100 + p / 400.

Definition days_in_month (y m : Z) : Z :=
  if m =? 2 then (if is_leap y then 29 else 28)
  else if (m =? 4) || (m =? 6) || (m =? 9) || (m =? 11) then 30
  else 31.

Fixpoint days_before_month_aux (y : Z) (k : nat) : Z :=
  match k with
  | O => 0
  | S k' => days_before_month_aux y k' + days_in_month y (Z.of_nat k)
  end.

(** Number of days of year [y] before the first day of month [m]. *)
Definition days_before_month (y m : Z) : Z :=
  days_before_month_aux y (Z.to_nat (m - 1)).

Definition ymd2ord (y m d : Z) : date :=
  days_before_year y + days_before_month y m + d.

(** A [datetime]: the ordinal of its date, the microseconds since
    midnight, and the UTC offset in microseconds when it is aware. *)
Record datetime : Type := mk_datetime {
  dt_ord : date;
  dt_micro : Z;
  dt_offset : option Z
}.

#[global] Instance datetime_eq_dec : EqDecision datetime.
Proof. solve_decision. Defined.

(** [dt.date()]: the date part as written, no conversion to UTC. *)
Definition date_of (dt : datetime) : date := dt_ord dt.

Definition DAY_US : Z := 86400 * 1000000.

(** The constructor [datetime(y, m, d, hh, mm, ss, us, tzinfo)] with its
    range checks; [None] stands for the [ValueError]. *)
Definition make (y m d hh mm ss us : Z) (off : option Z) : option datetime :=
  if (1 <=? y) && (y <=? 9999) && (1 <=? m) && (m <=? 12)
     && (1 <=? d) && (d <=? days_in_month y m)
     && (0 <=? hh) && (hh <=? 23) && (0 <=? mm) && (mm <=? 59)
     && (0 <=? ss) && (ss <=? 59) && (0 <=? us) && (us <=? 999999)
     && match off with
        | Some o => (- DAY_US <? o) && (o <? DAY_US)
        | None => true
        end
  then Some (mk_datetime (ymd2ord y m d)
               (((hh * 60 + mm) * 60 + ss) * 1000000 + us) off)
  else None.

(** [date + timedelta(days=n)]: [OverflowError] outside 0001-01-01 ..
    9999-12-31 (this also covers a [timedelta] that is itself too
    large, the date being at most [MAXORDINAL]). *)
Definition date_add_days (d : date) (n : Z) : res date :=
  let o := d + n in
  if (0 <? o) && (o <=? MAXORDINAL) then Ok o else Error OverflowError.

(** [(a - b).days]: mixing a naive and an aware datetime is a
    [TypeError]; [timedelta.days] is the floor of the difference. *)
Definition sub_days (a b : datetime) : res Z :=
  let base := (dt_ord a - dt_ord b) * DAY_US + (dt_micro a - dt_micro b) in
  match dt_offset a, dt_offset b with
  | None, None => Ok (base / DAY_US)
  | Some oa, Some ob => Ok ((base + ob - oa) / DAY_US)
  | _, _ => Error TypeError
  end.

(** *** [datetime.fromisoformat]

    The grammar documented for Python 3.7 to 3.10:
    [YYYY-MM-DD[*HH[:MM[:SS[.fff[fff]]]][+HH:MM[:SS[.ffffff]]]]],
    where [*] is any single character. *)

Definition digit (c : ascii) : option Z := Py.digit_of c.

(** Exactly [k] decimal digits at the head of [s]. *)
Fixpoint digits (k : nat) (acc : Z) (s : string) : option (Z * string) :=
  match k with
  | O => Some (acc, s)
  | S k' =>
      match s with
      | String c r =>
          match digit c with
          | Some v => digits k' (acc * 10 + v) r
          | None => None
          end
      | EmptyString => None
      end
  end.

Definition expect (c : ascii) (s : string) : option string :=
  match s with
  | String a r => if Ascii.eqb a c then Some r else None
  | EmptyString => None
  end.

(** [.fff[fff]] at the head of [s]; a 3 digit fraction is milliseconds. *)
Definition parse_fraction (six_only : bool) (s : string)
  : option (Z * string) :=
  match digits 6 0 s with
  | Some r => Some r
  | None =>
      if six_only then None
      else match digits 3 0 s with
           | Some (v, r) => Some (v * 1000, r)
           | None => None
           end
  end.

(** [HH[:MM[:SS[.fff[fff]]]]]; returns the components and what follows. *)
Definition parse_hh_mm_ss_ff (six_only : bool) (s : string)
  : option (Z * Z * Z * Z * string) :=
  '(hh, r1) ← digits 2 0 s;
  match expect ":" r1 with
  | None => Some (hh, 0, 0, 0, r1)
  | Some r2 =>
      '(mm, r3) ← digits 2 0 r2;
      match expect ":" r3 with
      | None => Some (hh, mm, 0, 0, r3)
      | Some r4 =>
          '(ss, r5) ← digits 2 0 r4;
          match expect "." r5 with
          | None => Some (hh, mm, ss, 0, r5)
          | Some r6 =>
              '(us, r7) ← parse_fraction six_only r6;
              Some (hh, mm, ss, us, r7)
          end
      end
  end.

(** [+HH:MM[:SS[.ffffff]]] up to the end of the string, as an offset in
    microseconds. *)
Definition parse_tz (s : string) : option Z :=
  match s with
  | String c r =>
      let sign := if Ascii.eqb c "-" then Some (-1)
                  else if Ascii.eqb c "+" then Some 1 else None in
      sg ← sign;
      '(hh, r1) ← digits 2 0 r;
      r2 ← expect ":" r1;
      '(mm, r3) ← digits 2 0 r2;
      match r3 with
      | EmptyString => Some (sg * ((hh * 60 + mm) * 60 * 1000000))
      | _ =>
          r4 ← expect ":" r3;
          '(ss, r5) ← digits 2 0 r4;
          match r5 with
          | EmptyString => Some (sg * (((hh * 60 + mm) * 60 + ss) * 1000000))
          | _ =>
              r6 ← expect "." r5;
              '(us, r7) ← digits 6 0 r6;
              match r7 with
              | EmptyString =>
                  Some (sg * ((((hh * 60 + mm) * 60 + ss) * 1000000) + us))
              | _ => None
              end
          end
      end
  | EmptyString => None
  end.

Definition fromisoformat (s : string) : option datetime :=
  '(y, r1) ← digits 4 0 s;
  r2 ← expect "-" r1;
  '(m, r3) ← digits 2 0 r2;
  r4 ← expect "-" r3;
  '(d, r5) ← digits 2 0 r4;
  match r5 with
  | EmptyString => make y m d 0 0 0 0 None
  | String _sep tstr =>
      '(hh, mm, ss, us, r6) ← parse_hh_mm_ss_ff false tstr;
      match r6 with
      | EmptyString => make y m d hh mm ss us None
      | _ => off ← parse_tz r6; make y m d hh mm ss us (Some off)
      end
  end.

End Datetime.

(** ** [config.py]: the configuration records the pipeline reads *)

Module Config.

Record OpenReviewConfig : Type := {
  venue_id : option string;
  limit : option Z
}.

Record OfficialSiteConfig : Type := {
  list_url : option string;
  item_selector : option string;
  title_selector : option string
}.

Record ConferenceConfig : Type := {
  name : string;
  year : Z;
  arxiv_categories : list string;
  keywords : list string;
  source_priority : option (list string);
  openreview : option OpenReviewConfig;
  official_site : option OfficialSiteConfig
}.

Record MonitoringConfig : Type := {
  deadline_lag_days : Z;
  arxiv_max_results : Z;
  arxiv_batch_days : Z
}.

Record LLMConfig : Type := {
  provider : string;
  model : string;
  max_batch_size : Z
}.

End Config.

(** ** [db.py]: the SQLite store *)

Module Db.
Import Datetime.

(** One row of each table of [SCHEMA]; a nullable column is an [option]. *)
Record conference_row : Type := {
  conf_id : Z;
  conf_name : string;
  conf_year : Z;
  conf_deadline : option string;
  conf_triggered_at : option datetime
}.

Record paper_row : Type := {
  paper_id : Z;
  paper_conference : string;
  paper_year : Z;
  paper_source : option string;
  paper_title : string;
  paper_abstract : option string;
  paper_pdf_url : option string;
  paper_arxiv_id : option string;
  paper_created_at : option string
}.

Record summary_row : Type := {
  summary_id : Z;
  summary_paper_id : Z;
  summary_tldr_en : Py.pyval;
  summary_tldr_zh : Py.pyval
}.

Record cluster_row : Type := {
  cluster_id : Z;
  cluster_conference : string;
  cluster_year : Z;
  cluster_label : string;
  cluster_paper_id : Z
}.

(** The database file: the rows of each table in rowid order, and for
    each AUTOINCREMENT key the last rowid handed out. *)
Record database : Type := {
  conferences : list conference_row;
  conferences_seq : Z;
  papers : list paper_row;
  summaries : list summary_row;
  summaries_seq : Z;
  clusters : list cluster_row;
  clusters_seq : Z
}.

Definition set_conferences (rows : list conference_row) (seq : Z)
    (db : database) : database :=
  {| conferences := rows; conferences_seq := seq;
     papers := papers db;
     summaries := summaries db; summaries_seq := summaries_seq db;
     clusters := clusters db; clusters_seq := clusters_seq db |}.

Definition set_summaries (rows : list summary_row) (seq : Z)
    (db : database) : database :=
  {| conferences := conferences db; conferences_seq := conferences_seq db;
     papers := papers db;
     summaries := rows; summaries_seq := seq;
     clusters := clusters db; clusters_seq := clusters_seq db |}.

Definition set_clusters (rows : list cluster_row) (seq : Z)
    (db : database) : database :=
  {| conferences := conferences db; conferences_seq := conferences_seq db;
     papers := papers db;
     summaries := summaries db; summaries_seq := summaries_seq db;
     clusters := rows; clusters_seq := seq |}.

(** [WHERE name=? AND year=?] on [conferences]. *)
Definition conf_key_is (n : string) (y : Z) (r : conference_row) : bool :=
  String.eqb (conf_name r) n && (conf_year r =? y).

(** [upsert_conference]: [INSERT OR IGNORE INTO conferences (name, year,
    deadline)]; the UNIQUE(name, year) constraint makes the statement a
    no-op when a row with that key exists. *)
Definition upsert_conference (n : string) (y : Z) (deadline : option string)
    (db : database) : database :=
  if existsb (conf_key_is n y) (conferences db) then db
  else
    let id := conferences_seq db + 1 in
    set_conferences
      (conferences db ++
       [{| conf_id := id; conf_name := n; conf_year := y;
           conf_deadline := deadline; conf_triggered_at := None |}])
      id db.

Definition stamp (t : datetime) (r : conference_row) : conference_row :=
  {| conf_id := conf_id r; conf_name := conf_name r; conf_year := conf_year r;
     conf_deadline := conf_deadline r; conf_triggered_at := Some t |}.

(** [mark_conference_triggered]: [UPDATE conferences SET triggered_at=?
    WHERE name=? AND year=?], [t] being the [datetime.utcnow()] read by
    the call. *)
Definition mark_conference_triggered (t : datetime) (n : string) (y : Z)
    (db : database) : database :=
  set_conferences
    (map (fun r => if conf_key_is n y r then stamp t r else r)
         (conferences db))
    (conferences_seq db) db.

(** *** Papers and summaries *)

Definition has_summary (db : database) (pid : Z) : bool :=
  existsb (fun s => summary_paper_id s =? pid) (summaries db).

(** The WHERE clause of [fetch_papers_without_summary] on one row of
    [papers p LEFT JOIN summaries s ON p.id = s.paper_id]:
    [p.conference=? AND p.year=? AND s.id IS NULL AND p.abstract IS NOT
    NULL]; the selected columns are [p.id, p.title, p.abstract]. *)
Definition summary_candidate (db : database) (conference : string)
    (year : Z) (p : paper_row) : option (Z * string * string) :=
  if String.eqb (paper_conference p) conference && (paper_year p =? year)
     && negb (has_summary db (paper_id p))
  then match paper_abstract p with
       | Some a => Some (paper_id p, paper_title p, a)
       | None => None
       end
  else None.

(** [LIMIT n]: a negative bound means no bound in SQLite. *)
Definition sql_limit {A : Type} (n : Z) (rows : list A) : list A :=
  if n <? 0 then rows else take (Z.to_nat n) rows.

Definition fetch_papers_without_summary (db : database)
    (conference : string) (year : Z) (limit : Z)
  : list (Z * string * string) :=
  sql_limit limit (omap (summary_candidate db conference year) (papers db)).

(** Values the [sqlite3] driver can bind to a parameter. *)
Definition bindable (v : Py.pyval) : bool :=
  match v with
  | Py.JArr _ | Py.JObj _ => false
  | _ => true
  end.

(** [INSERT OR REPLACE INTO summaries (paper_id, tldr_en, tldr_zh)]: the
    row that holds [paper_id] (UNIQUE) is deleted first. *)
Definition replace_summary (pid : Z) (en zh : Py.pyval) (db : database)
  : database :=
  let id := summaries_seq db + 1 in
  set_summaries
    (List.filter (fun s => negb (summary_paper_id s =? pid)) (summaries db)
     ++ [{| summary_id := id; summary_paper_id := pid;
            summary_tldr_en := en; summary_tldr_zh := zh |}])
    id db.

Fixpoint save_summaries_loop (rows : list (Z * Py.pyval * Py.pyval))
    (db : database) : res database :=
  match rows with
  | [] => Ok db
  | (pid, en, zh) :: rest =>
      if bindable en && bindable zh
      then save_summaries_loop rest (replace_summary pid en zh db)
      else Error InterfaceError
  end.

(** [save_summaries]: one transaction; an exception leaves the function
    before [conn.commit()], so nothing of it is stored. *)
Definition save_summaries (rows : list (Z * Py.pyval * Py.pyval))
    (db : database) : res unit * database :=
  match save_summaries_loop rows db with
  | Ok db' => (Ok (), db')
  | Error e => (Error e, db)
  end.

(** *** Cluster assignments *)

Definition cluster_scope_is (conference : string) (year : Z)
    (r : cluster_row) : bool :=
  String.eqb (cluster_conference r) conference && (cluster_year r =? year).

Definition insert_cluster (conference : string) (year : Z)
    (a : Z * string) (db : database) : database :=
  let id := clusters_seq db + 1 in
  set_clusters
    (clusters db ++
     [{| cluster_id := id; cluster_conference := conference;
         cluster_year := year; cluster_label := a.2;
         cluster_paper_id := a.1 |}])
    id db.

(** [save_clusters]: [DELETE FROM clusters WHERE conference=? AND
    year=?], then one [INSERT] per assignment [(paper_id, label)]. *)
Definition save_clusters (conference : string) (year : Z)
    (assignments : list (Z * string)) (db : database) : database :=
  let deleted :=
    set_clusters
      (List.filter (fun r => negb (cluster_scope_is conference year r))
                   (clusters db))
      (clusters_seq db) db in
  foldl (fun d a => insert_cluster conference year a d) deleted assignments.

(** The assignments stored for a (conference, year), as [(paper_id,
    label)] pairs in rowid order. *)
Definition stored_assignments (conference : string) (year : Z)
    (db : database) : list (Z * string) :=
  map (fun r => (cluster_paper_id r, cluster_label r))
      (List.filter (cluster_scope_is conference year) (clusters db)).

End Db.

(** ** [ccf_monitor.py]: the trigger engine *)

Module CcfMonitor.
Import Datetime Config Db.

(** The state a run acts on: the database and the number of clock
    readings taken so far. *)
Record world : Type := {
  w_db : database;
  w_tick : nat
}.

Section Clock.

(** [utcnow k] is what the [k]-th call of [datetime.utcnow()] returns. *)
Variable utcnow : nat -> datetime.

Definition read_clock (w : world) : datetime * world :=
  (utcnow (w_tick w), {| w_db := w_db w; w_tick := S (w_tick w) |}).

Definition do_upsert (n : string) (y : Z) (deadline : option string)
    (w : world) : world :=
  {| w_db := upsert_conference n y deadline (w_db w); w_tick := w_tick w |}.

Definition do_mark (n : string) (y : Z) (w : world) : world :=
  let '(t, w1) := read_clock w in
  {| w_db := mark_conference_triggered t n y (w_db w1);
     w_tick := w_tick w1 |}.

(** [deadline_str.replace("Z", "+00:00")] then [fromisoformat]. *)
Definition parse_deadline (deadline_str : string) : option datetime :=
  fromisoformat (Py.replace "Z" "+00:00" deadline_str).

(** The body of the [for conf in config_confs] loop, [today] being
    [now.date()] and [triggered] the list built so far. *)
Fixpoint select_loop (today : date) (deadlines : gmap string string)
    (lag_days : Z) (config_confs triggered : list ConferenceConfig)
    (w : world) : res (list ConferenceConfig) * world :=
  match config_confs with
  | [] => (Ok triggered, w)
  | conf :: rest =>
      let acronym := Py.upper (name conf) in
      let deadline_str := deadlines !! acronym in
      let w1 := do_upsert (name conf) (year conf) deadline_str w in
      match deadline_str with
      | None => select_loop today deadlines lag_days rest triggered w1
      | Some s =>
          if negb (Py.truthy_str s)
          then select_loop today deadlines lag_days rest triggered w1
          else
            match parse_deadline s with
            | None => select_loop today deadlines lag_days rest triggered w1
            | Some dt =>
                match date_add_days (date_of dt) lag_days with
                | Error e => (Error e, w1)
                | Ok due =>
                    if due <=? today
                    then select_loop today deadlines lag_days rest
                           (triggered ++ [conf])
                           (do_mark (name conf) (year conf) w1)
                    else select_loop today deadlines lag_days rest
                           triggered w1
                end
            end
      end
  end.

Definition select_triggered_conferences
    (config_confs : list ConferenceConfig)
    (deadlines : gmap string string) (lag_days : Z) (w : world)
  : res (list ConferenceConfig) * world :=
  let '(now, w0) := read_clock w in
  select_loop (date_of now) deadlines lag_days config_confs [] w0.

End Clock.

End CcfMonitor.

(** ** [collector.py]: cascading collection with deduplication *)

Module Collector.
Import Config Py.

(** A harvested record is a Python [dict]. *)
Abbreviation paper := (gmap string pyval).

(** [d.setdefault(k, v)]. *)
Definition setdefault (k : string) (v : pyval) (p : paper) : paper :=
  match p !! k with
  | Some _ => p
  | None => <[k := v]> p
  end.

Definition _normalize (p : paper) (conference : string) (year : Z)
    (source : string) : paper :=
  let p1 := setdefault "affiliations" (JStr "") p in
  let p2 := setdefault "supplemental_url"
              (default JNull (p1 !! "supplementary_material")) p1 in
  <["source" := JStr source]>
    (<["year" := JNum year]> (<["conference" := JStr conference]> p2)).

(** [p.get("title", "").lower()]; a title that is not a [str] has no
    [lower]. *)
Definition title_key (p : paper) : res string :=
  match default (JStr "") (p !! "title") with
  | JStr t => Ok (lower t)
  | _ => Error AttributeError
  end.

(** The inner loop [for p in normalized]. *)
Fixpoint dedup (normalized : list paper) (seen_titles : gset string)
    (collected : list paper) : res (gset string * list paper) :=
  match normalized with
  | [] => Ok (seen_titles, collected)
  | p :: rest =>
      match title_key p with
      | Error e => Error e
      | Ok k =>
          if truthy_str k && negb (bool_decide (k ∈ seen_titles))
          then dedup rest ({[k]} ∪ seen_titles) (collected ++ [p])
          else dedup rest seen_titles collected
      end
  end.

Definition default_priority : list string :=
  ["openreview"; "official"; "arxiv"].

Section Adapters.

(** The three source adapters: what each returns for a conference.
    They catch their own network errors and return [[]]. *)
Variable fetch_openreview : ConferenceConfig -> list paper.
Variable fetch_official_site : ConferenceConfig -> list paper.
Variable search_arxiv :
  string -> Z -> list string -> list string -> Z -> Z -> list paper.

(** The [if source == ... elif ... else: continue] chain; [None] is
    the [continue]. *)
Definition fetch_source (conf : ConferenceConfig)
    (monitoring : MonitoringConfig) (categories keywords : list string)
    (source : string) : option (list paper) :=
  if String.eqb source "openreview" then Some (fetch_openreview conf)
  else if String.eqb source "official" then Some (fetch_official_site conf)
  else if String.eqb source "arxiv" then
    Some (search_arxiv (name conf) (year conf) categories keywords
            (arxiv_max_results monitoring) (arxiv_batch_days monitoring))
  else None.

(** The outer loop [for source in priority]. *)
Fixpoint collect_loop (conf : ConferenceConfig)
    (monitoring : MonitoringConfig) (categories keywords : list string)
    (priority : list string) (seen_titles : gset string)
    (collected : list paper) : res (list paper) :=
  match priority with
  | [] => Ok collected
  | source :: rest =>
      match fetch_source conf monitoring categories keywords source with
      | None =>
          collect_loop conf monitoring categories keywords rest
            seen_titles collected
      | Some papers =>
          let normalized :=
            map (fun p => _normalize p (name conf) (year conf) source)
                papers in
          match dedup normalized seen_titles collected with
          | Error e => Error e
          | Ok (seen', collected') =>
              collect_loop conf monitoring categories keywords rest
                seen' collected'
          end
      end
  end.

Definition collect_papers (conf : ConferenceConfig)
    (monitoring : MonitoringConfig) (categories keywords : list string)
  : res (list paper) :=
  let priority :=
    match source_priority conf with
    | Some (s :: l) => s :: l
    | _ => default_priority
    end in
  collect_loop conf monitoring categories keywords priority ∅ [].

End Adapters.

End Collector.

(** ** [llm_mcp.py]: the language-model collaborator *)

Module Llm.
Import Py.

(** What one chat completion returns: the message text, and what
    [json.loads] makes of it ([None] when it raises). *)
Record reply : Type := {
  reply_text : string;
  reply_json : option pyval
}.

(** The user message of each kind of request the client sends. *)
Inductive prompt : Type :=
  | SummarizePrompt (payload : list (Z * string * string))
  | PlaceholderPrompt (readme : string)
  | PlanPrompt (task : string) (tools : list string) (payload : pyval)
  | ToolSummaryPrompt (task : string) (executed : list pyval).

(** The collaborator: the answer to the [k]-th request, given its prompt
    and whether the JSON object response format was asked for.  An
    [Error] is an exception of the transport. *)
Definition collaborator : Type := nat -> prompt -> bool -> res reply.

(** An [LLMClient]: the number of requests sent so far and the names of
    the registered tools. *)
Record client : Type := {
  requests : nat;
  tools : list string
}.

Definition register_tool (tool : string) (c : client) : client :=
  {| requests := requests c;
     tools := if existsb (String.eqb tool) (tools c) then tools c
              else tools c ++ [tool] |}.

Section Client.

Variable llm : collaborator.

(** [_chat]: one request. *)
Definition _chat (p : prompt) (json_object : bool) (c : client)
  : res string * client :=
  let c' := {| requests := S (requests c); tools := tools c |} in
  match llm (requests c) p json_object with
  | Ok r => (Ok (reply_text r), c')
  | Error e => (Error e, c')
  end.

(** The body of the [try] in [_chat_json]: [_chat] then [json.loads]. *)
Definition chat_and_load (p : prompt) (force_object : bool) (c : client)
  : res pyval * client :=
  let c' := {| requests := S (requests c); tools := tools c |} in
  match llm (requests c) p force_object with
  | Ok r =>
      match reply_json r with
      | Some v => (Ok v, c')
      | None => (Error ValueError, c')
      end
  | Error e => (Error e, c')
  end.

(** [for _ in range(k): try: return ... except Exception: log], then
    [return None]. *)
Fixpoint chat_json_attempts (k : nat) (p : prompt) (force_object : bool)
    (c : client) : res pyval * client :=
  match k with
  | O => (Ok JNull, c)
  | S k' =>
      match chat_and_load p force_object c with
      | (Ok v, c') => (Ok v, c')
      | (Error _, c') => chat_json_attempts k' p force_object c'
      end
  end.

Definition _chat_json (p : prompt) (force_object : bool) (c : client)
  : res pyval * client :=
  chat_json_attempts 2 p force_object c.

(** One iteration of [for item in data] in [batch_summarize]; [None]
    is the [except Exception: continue]. *)
Definition summary_of_item (item : pyval) : option (Z * pyval * pyval) :=
  match getitem item "id" with
  | Ok idv =>
      match int idv with
      | Ok id =>
          match get item "tldr_en" (JStr ""), get item "tldr_zh" (JStr "") with
          | Ok en, Ok zh => Some (id, en, zh)
          | _, _ => None
          end
      | Error _ => None
      end
  | Error _ => None
  end.

Definition batch_summarize (papers : list (Z * string * string))
    (c : client) : res (list (Z * pyval * pyval)) * client :=
  match papers with
  | [] => (Ok [], c)
  | _ =>
      match _chat_json (SummarizePrompt papers) false c with
      | (Error e, c') => (Error e, c')
      | (Ok data, c') =>
          if negb (truthy data) then (Ok [], c')
          else match iter data with
               | Error e => (Error e, c')
               | Ok items => (Ok (omap summary_of_item items), c')
               end
      end
  end.

(** [check_repo_placeholder]: any exception of the request is [False]. *)
Definition check_repo_placeholder (readme_text : string) (c : client)
  : bool * client :=
  match _chat (PlaceholderPrompt (take_str 4000 readme_text)) false c with
  | (Ok result, c') => (contains "true" (lower result), c')
  | (Error _, c') => (false, c')
  end.

(** The handler registered by [verify_repo] under ["check_placeholder"]:
    [lambda args: {"placeholder": llm.check_repo_placeholder(
    args.get("text", ""))}]. *)
Definition placeholder_handler (args : pyval) (c : client)
  : res pyval * client :=
  match get args "text" (JStr "") with
  | Error e => (Error e, c)
  | Ok (JStr text) =>
      let '(b, c') := check_repo_placeholder text c in
      (Ok (JObj [("placeholder", JBool b)]), c')
  | Ok _ => (Error TypeError, c)
  end.

(** One iteration of [for call in calls] in [run_tool_plan]. *)
Definition run_call (call : pyval) (executed : list pyval) (c : client)
  : res (list pyval) * client :=
  match get call "tool" JNull with
  | Error e => (Error e, c)
  | Ok (JArr _) | Ok (JObj _) => (Error TypeError, c)   (* unhashable key *)
  | Ok (JStr tool) =>
      if existsb (String.eqb tool) (tools c) then
        match get call "input" (JObj []) with
        | Error e => (Error e, c)
        | Ok input =>
            match placeholder_handler input c with
            | (Ok result, c') =>
                (Ok (executed ++
                     [JObj [("tool", JStr tool); ("result", result)]]), c')
            | (Error _, c') =>
                (Ok (executed ++
                     [JObj [("tool", JStr tool); ("error", JStr "")]]), c')
            end
        end
      else (Ok executed, c)
  | Ok _ => (Ok executed, c)
  end.

Fixpoint run_calls (calls : list pyval) (executed : list pyval)
    (c : client) : res (list pyval) * client :=
  match calls with
  | [] => (Ok executed, c)
  | call :: rest =>
      match run_call call executed c with
      | (Ok executed', c') => run_calls rest executed' c'
      | (Error e, c') => (Error e, c')
      end
  end.

(** [run_tool_plan]: ask for a plan, run the tools, ask for a summary. *)
Definition run_tool_plan (task : string) (payload : pyval) (c : client)
  : res pyval * client :=
  match tools c with
  | [] => (Ok (JObj []), c)
  | _ =>
      match _chat_json (PlanPrompt task (tools c) payload) false c with
      | (Error e, c1) => (Error e, c1)
      | (Ok plan, c1) =>
          match iter (py_or plan (JArr [])) with
          | Error e => (Error e, c1)
          | Ok calls =>
              match run_calls calls [] c1 with
              | (Error e, c2) => (Error e, c2)
              | (Ok executed, c2) =>
                  match _chat_json (ToolSummaryPrompt task executed) true c2 with
                  | (Error e, c3) => (Error e, c3)
                  | (Ok summary, c3) => (Ok (py_or summary (JObj [])), c3)
                  end
              end
          end
      end
  end.

End Client.

End Llm.

(** ** [code_verifier.py]: the code verification engine *)

Module CodeVerifier.
Import Py Datetime Llm.

(** A [requests] response: the status code and what [resp.json()]
    returns ([None] when the body is not JSON and the call raises). *)
Record response : Type := {
  status_code : Z;
  json : option pyval
}.

(** [requests.get(url, headers=...)]: an [Error] is an exception of the
    transport (timeout, connection refused). *)
Definition http : Type := string -> list (string * string) -> res response.

Definition GITHUB_API : string := "https://api.github.com".

Definition _get_headers (token : option string) : list (string * string) :=
  ("Accept", "application/vnd.github+json") ::
  (if truthy_ostr token
   then [("Authorization", "Bearer " +:+ default "" token)]
   else []).

Definition resp_json (r : response) : res pyval :=
  match json r with
  | Some v => Ok v
  | None => Error ValueError
  end.

(** [url.rstrip("/").split("github.com/")[-1].split("/")]. *)
Definition url_parts (url : string) : list string :=
  split "/"
    (List.last (split "github.com/" (rstrip_where (Ascii.eqb "/") url)) "").

Definition allowed_ext : list string :=
  [".py"; ".ipynb"; ".cc"; ".cpp"; ".cu"; ".js"; ".java"].

(** [any(name.endswith(ext) for ext in allowed_ext)]. *)
Definition has_allowed_ext (name : string) : bool :=
  existsb (endswith name) allowed_ext.

(** The verdict [dict] of [verify_repo]. *)
Record verdict : Type := {
  status : string;
  has_readme : bool;
  has_code : bool;
  last_commit : pyval
}.

(** [v > 0] for the value of [meta.get("size", 0)]. *)
Definition gt_zero (v : pyval) : res bool :=
  match v with
  | JNum n => Ok (0 <? n)
  | JBool b => Ok b
  | _ => Error TypeError
  end.

(** The [try] block of the recency check: [True] when it sets the status
    to ["Placeholder"]; any exception ([AttributeError] of a value that is
    not a [str], [ValueError] of the parser, [TypeError] of the
    subtraction) is passed over. *)
Definition recency_downgrade (paper_date : option string)
    (last_commit : pyval) : bool :=
  if truthy_ostr paper_date && truthy last_commit then
    match paper_date, last_commit with
    | Some pd, JStr lc =>
        match fromisoformat (replace "Z" "+00:00" pd) with
        | Some paper_dt =>
            match fromisoformat (replace "Z" "+00:00" lc) with
            | Some repo_dt =>
                match sub_days repo_dt paper_dt with
                | Ok days => 180 <? Z.abs days
                | Error _ => false
                end
            | None => false
            end
        | None => false
        end
    | _, _ => false
    end
  else false.

(** The loop [for r in calls] at the end of [verify_repo]: [True] when it
    reaches a [dict] whose [result] has a truthy [placeholder]. *)
Fixpoint judged_placeholder (calls : list pyval) : res bool :=
  match calls with
  | [] => Ok false
  | r :: rest =>
      match r with
      | JObj _ =>
          match get r "result" (JObj []) with
          | Error e => Error e
          | Ok result =>
              match get result "placeholder" JNull with
              | Error e => Error e
              | Ok v => if truthy v then Ok true else judged_placeholder rest
              end
          end
      | _ => judged_placeholder rest
      end
  end.

(** The extraction of [calls] from what [run_tool_plan] returned. *)
Definition calls_of (result : pyval) : res pyval :=
  match result with
  | JObj _ =>
      match get result "calls" JNull, get result "results" JNull with
      | Ok a, Ok b => Ok (py_or (py_or a b) (JArr []))
      | Error e, _ | _, Error e => Error e
      end
  | JArr _ => Ok result
  | _ => Ok (JArr [])
  end.

Section Network.

Variable requests_get : http.

(** [base64.b64decode(content).decode("utf-8", errors="ignore")];
    [None] when the decoder raises. *)
Variable b64decode : string -> option string.

Definition fetch_repo_metadata (url : string) (token : option string)
  : res pyval :=
  match url_parts url with
  | owner :: repo :: _ =>
      match requests_get (GITHUB_API +:+ "/repos/" +:+ owner +:+ "/" +:+ repo)
              (_get_headers token) with
      | Error e => Error e
      | Ok resp =>
          if negb (status_code resp =? 200) then Ok JNull
          else resp_json resp
      end
  | _ => Error IndexError
  end.

Definition fetch_latest_commit_date (owner repo : string)
    (token : option string) : res pyval :=
  match requests_get
          (GITHUB_API +:+ "/repos/" +:+ owner +:+ "/" +:+ repo
           +:+ "/commits?per_page=1")
          (_get_headers token) with
  | Error e => Error e
  | Ok resp =>
      if negb (status_code resp =? 200) then Ok JNull
      else
        match resp_json resp with
        | Error e => Error e
        | Ok items =>
            if negb (truthy items) then Ok JNull
            else
              match items with
              | JArr (first :: _) =>
                  match get first "commit" (JObj []) with
                  | Error e => Error e
                  | Ok commit =>
                      match get commit "author" (JObj []) with
                      | Error e => Error e
                      | Ok author => get author "date" JNull
                      end
                  end
              | JObj _ => Error KeyError
              | JStr _ => Error AttributeError
              | _ => Error TypeError
              end
        end
  end.

Definition fetch_readme (owner repo : string) (token : option string)
  : res string :=
  match requests_get
          (GITHUB_API +:+ "/repos/" +:+ owner +:+ "/" +:+ repo +:+ "/readme")
          (_get_headers token) with
  | Error e => Error e
  | Ok resp =>
      if negb (status_code resp =? 200) then Ok ""
      else
        match resp_json resp with
        | Error e => Error e
        | Ok body =>
            match get body "content" (JStr "") with
            | Error e => Error e
            | Ok (JStr content) => Ok (default "" (b64decode content))
            | Ok _ => Ok ""
            end
        end
  end.

(** The loop [for item in data] of [_check_code_files]. *)
Fixpoint any_code_file (data : list pyval) : res bool :=
  match data with
  | [] => Ok false
  | item :: rest =>
      match get item "name" (JStr "") with
      | Error e => Error e
      | Ok (JStr name) =>
          if has_allowed_ext (lower name) then Ok true
          else any_code_file rest
      | Ok _ => Error AttributeError
      end
  end.

Definition _check_code_files (owner repo : string) (token : option string)
  : res bool :=
  match requests_get
          (GITHUB_API +:+ "/repos/" +:+ owner +:+ "/" +:+ repo
           +:+ "/contents")
          (_get_headers token) with
  | Error e => Error e
  | Ok resp =>
      if negb (status_code resp =? 200) then Ok false
      else
        match resp_json resp with
        | Error e => Error e
        | Ok data =>
            match iter data with
            | Error e => Error e
            | Ok items => any_code_file items
            end
        end
  end.

(** Steps 1 to 6 of [verify_repo]: everything before the readme is
    fetched.  The result is the verdict so far and, when the
    repository was reached, its owner and name. *)
Definition verify_repo_checks (url : string) (token : option string)
    (paper_date : option string) : res (verdict * option (string * string)) :=
  match fetch_repo_metadata url token with
  | Error e => Error e
  | Ok meta =>
      if negb (truthy meta) then
        Ok ({| status := "None"; has_readme := false; has_code := false;
               last_commit := JNull |}, None)
      else
        match take 2 (url_parts url) with
        | [owner; repo] =>
            match get meta "size" (JNum 0) with
            | Error e => Error e
            | Ok size =>
                match gt_zero size with
                | Error e => Error e
                | Ok has_readme =>
                    match fetch_latest_commit_date owner repo token with
                    | Error e => Error e
                    | Ok commit_date =>
                        match get meta "pushed_at" JNull with
                        | Error e => Error e
                        | Ok pushed_at =>
                            let last_commit := py_or commit_date pushed_at in
                            match _check_code_files owner repo token with
                            | Error e => Error e
                            | Ok has_code =>
                                let status0 :=
                                  if has_code && has_readme
                                  then "Verified" else "Placeholder" in
                                let status1 :=
                                  if recency_downgrade paper_date last_commit
                                  then "Placeholder" else status0 in
                                Ok ({| status := status1;
                                       has_readme := has_readme;
                                       has_code := has_code;
                                       last_commit := last_commit |},
                                    Some (owner, repo))
                            end
                        end
                    end
                end
            end
        | _ => Error ValueError
        end
  end.

(** The body of [if llm and readme_text:]: register the tool, run the
    plan, and look for an affirmative judgment among the calls of the
    result. *)
Definition placeholder_judgment (oracle : collaborator)
    (readme_text : string) (c : client) : res bool * client :=
  let c1 := register_tool "check_placeholder" c in
  match run_tool_plan oracle "判断 README 是否占位符"
          (JObj [("text", JStr readme_text)]) c1 with
  | (Error e, c2) => (Error e, c2)
  | (Ok result, c2) =>
      match calls_of result with
      | Error e => (Error e, c2)
      | Ok calls =>
          match iter calls with
          | Error e => (Error e, c2)
          | Ok rs => (judged_placeholder rs, c2)
          end
      end
  end.

(** Step 7: the optional judgment of the collaborator on the readme. *)
Definition llm_step (llm : option collaborator) (readme_text : string)
    (status0 : string) (c : client) : res string * client :=
  match llm with
  | Some oracle =>
      if truthy_str readme_text then
        match placeholder_judgment oracle readme_text c with
        | (Error e, c') => (Error e, c')
        | (Ok true, c') => (Ok "Placeholder", c')
        | (Ok false, c') => (Ok status0, c')
        end
      else (Ok status0, c)
  | None => (Ok status0, c)
  end.

(** [try: readme_text = fetch_readme(...) except Exception:
    readme_text = ""]. *)
Definition readme_or_empty (owner repo : string) (token : option string)
  : string :=
  match fetch_readme owner repo token with
  | Ok text => text
  | Error _ => ""
  end.

Definition verify_repo (url : string) (token : option string)
    (llm : option collaborator) (paper_date : option string) (c : client)
  : res verdict * client :=
  match verify_repo_checks url token paper_date with
  | Error e => (Error e, c)
  | Ok (v, None) => (Ok v, c)
  | Ok (v, Some (owner, repo)) =>
      match llm_step llm (readme_or_empty owner repo token) (status v) c with
      | (Error e, c') => (Error e, c')
      | (Ok status', c') =>
          (Ok {| status := status'; has_readme := has_readme v;
                 has_code := has_code v; last_commit := last_commit v |},
           c')
      end
  end.

End Network.

End CodeVerifier.

(** ** [workflow.py]: the batch summarization loop of [process_conference] *)

Module Workflow.
Import Py Db Llm.

(** The state of the loop: the store and the client. *)
Record state : Type := {
  st_db : database;
  st_llm : client
}.

Section Loop.

Variable llm : collaborator.

(** [while batch: ...]: [fuel] bounds the number of iterations the
    model follows; [None] means the bound was reached with the loop
    still running. *)
Fixpoint summarize_while (fuel : nat) (name : string) (year : Z)
    (max_batch_size : Z) (batch : list (Z * string * string))
    (st : state) : option (res unit * state) :=
  match batch with
  | [] => Some (Ok (), st)
  | _ =>
      match fuel with
      | O => None
      | S fuel' =>
          match batch_summarize llm batch (st_llm st) with
          | (Error e, c') =>
              Some (Error e, {| st_db := st_db st; st_llm := c' |})
          | (Ok summaries, c') =>
              match save_summaries summaries (st_db st) with
              | (Error e, db') =>
                  Some (Error e, {| st_db := db'; st_llm := c' |})
              | (Ok _, db') =>
                  summarize_while fuel' name year max_batch_size
                    (fetch_papers_without_summary db' name year
                       max_batch_size)
                    {| st_db := db'; st_llm := c' |}
              end
          end
      end
  end.

(** Step 2 of [process_conference] when a client is configured. *)
Definition summarize_backlog (fuel : nat) (name : string) (year : Z)
    (max_batch_size : Z) (st : state) : option (res unit * state) :=
  summarize_while fuel name year max_batch_size
    (fetch_papers_without_summary (st_db st) name year max_batch_size) st.

End Loop.

End Workflow.

(** * Part II: specification predicates and sample data *)

Module Spec.
Import Py Datetime Config Db CcfMonitor Llm CodeVerifier.

(** ** Trigger engine *)

(** The activation condition of the specification: the feed has a
    deadline for the uppercased acronym, it parses, and
    [today >= deadline + lag_days]. *)
Definition activates (deadlines : gmap string string) (lag_days : Z)
    (today : date) (conf : ConferenceConfig) : Prop :=
  exists s dt,
    deadlines !! upper (name conf) = Some s
    /\ parse_deadline s = Some dt
    /\ date_of dt + lag_days <= today.

(** The same condition as a test. *)
Definition activates_b (deadlines : gmap string string) (lag_days : Z)
    (today : date) (conf : ConferenceConfig) : bool :=
  match deadlines !! upper (name conf) with
  | Some s =>
      match parse_deadline s with
      | Some dt => date_of dt + lag_days <=? today
      | None => false
      end
  | None => false
  end.

(** [deadline + timedelta(days=lag_days)] is a date (not after
    9999-12-31, not before 0001-01-01) for every configured conference
    whose deadline parses. *)
Definition due_date_representable (deadlines : gmap string string)
    (lag_days : Z) (conf : ConferenceConfig) : bool :=
  match deadlines !! upper (name conf) with
  | Some s =>
      match parse_deadline s with
      | Some dt =>
          (0 <? date_of dt + lag_days) && (date_of dt + lag_days <=? MAXORDINAL)
      | None => true
      end
  | None => true
  end.

Definition due_dates_representable (deadlines : gmap string string)
    (lag_days : Z) (confs : list ConferenceConfig) : bool :=
  forallb (due_date_representable deadlines lag_days) confs.

(** The [triggered_at] values stored for a (name, year). *)
Definition stamps (db : database) (n : string) (y : Z)
  : list (option datetime) :=
  map conf_triggered_at (List.filter (conf_key_is n y) (conferences db)).

(** The [deadline] values stored for a (name, year). *)
Definition stored_deadlines (db : database) (n : string) (y : Z)
  : list (option string) :=
  map conf_deadline (List.filter (conf_key_is n y) (conferences db)).

(** The rows of a (name, year) exist and each carries a [triggered_at]
    read from the clock at a reading [k] with [t0 <= k < t1]. *)
Definition stamped_during (utcnow : nat -> datetime) (t0 t1 : nat)
    (db : database) (n : string) (y : Z) : Prop :=
  stamps db n y <> []
  /\ Forall (fun s => exists k, (t0 <= k < t1)%nat /\ s = Some (utcnow k))
            (stamps db n y).

(** The stamps of a (name, year) are as before, or the key was new and
    its row was inserted with a NULL [triggered_at]. *)
Definition stamps_kept (db db' : database) (n : string) (y : Z) : Prop :=
  stamps db' n y = stamps db n y
  \/ (stamps db n y = [] /\ stamps db' n y = [None]).

(** What one iteration of the selection loop does with a conference. *)
Inductive decision : Type :=
  | Skip
  | Fire
  | Fail (e : exn).

Definition decide_conf (deadlines : gmap string string) (lag_days : Z)
    (today : date) (conf : ConferenceConfig) : decision :=
  match deadlines !! upper (name conf) with
  | Some s =>
      match parse_deadline s with
      | Some dt =>
          match date_add_days (date_of dt) lag_days with
          | Ok due => if due <=? today then Fire else Skip
          | Error e => Fail e
          end
      | None => Skip
      end
  | None => Skip
  end.

(** ** Collector *)

(** The deduplication key of a record: its case-folded title. *)
Definition key_of (p : Collector.paper) : string :=
  match p !! "title" with
  | Some (JStr t) => lower t
  | _ => ""
  end.

Definition title_is_str (p : Collector.paper) : Prop :=
  match p !! "title" with
  | Some (JStr _) | None => True
  | Some _ => False
  end.

(** First occurrence wins: a record is kept unless an earlier record has
    the same key. *)
Fixpoint first_occurrences (l : list Collector.paper)
  : list Collector.paper :=
  match l with
  | [] => []
  | p :: r =>
      p :: List.filter (fun q => negb (String.eqb (key_of q) (key_of p)))
             (first_occurrences r)
  end.

Definition has_title (p : Collector.paper) : bool := truthy_str (key_of p).

(** The records the loop keeps from [l] when [seen] holds the keys met
    so far. *)
Fixpoint kept (seen : gset string) (l : list Collector.paper) : list Collector.paper :=
  match l with
  | [] => []
  | p :: r =>
      if truthy_str (key_of p) && negb (bool_decide (key_of p ∈ seen))
      then p :: kept ({[key_of p]} ∪ seen) r
      else kept seen r
  end.

(** The keys the loop has seen after [l]. *)
Fixpoint seen_after (seen : gset string) (l : list Collector.paper) : gset string :=
  match l with
  | [] => seen
  | p :: r =>
      if truthy_str (key_of p) && negb (bool_decide (key_of p ∈ seen))
      then seen_after ({[key_of p]} ∪ seen) r
      else seen_after seen r
  end.

Section Harvest.

Variable fetch_openreview : ConferenceConfig -> list Collector.paper.
Variable fetch_official_site : ConferenceConfig -> list Collector.paper.
Variable search_arxiv :
  string -> Z -> list string -> list string -> Z -> Z
  -> list Collector.paper.

(** Everything the adapters return, normalized, in priority order. *)
Fixpoint harvest (conf : ConferenceConfig) (monitoring : MonitoringConfig)
    (categories keywords : list string) (priority : list string)
  : list Collector.paper :=
  match priority with
  | [] => []
  | source :: rest =>
      match Collector.fetch_source fetch_openreview fetch_official_site
              search_arxiv conf monitoring categories keywords source with
      | Some papers =>
          map (fun p => Collector._normalize p (name conf) (year conf) source)
              papers
      | None => []
      end ++ harvest conf monitoring categories keywords rest
  end.

Definition priority_of (conf : ConferenceConfig) : list string :=
  match source_priority conf with
  | Some (s :: l) => s :: l
  | _ => Collector.default_priority
  end.

End Harvest.

(** ** Collaborator and summarization backlog *)

(** What [json.loads] makes of an answer; [None] when the request or the
    parser raised. *)
Definition loads (a : res reply) : option pyval :=
  match a with
  | Ok r => reply_json r
  | Error _ => None
  end.

(** The papers of a (conference, year) the summarization query selects
    when no LIMIT applies: those with an abstract and without a
    summary. *)
Definition backlog (db : database) (conference : string) (year : Z)
  : list (Z * string * string) :=
  omap (summary_candidate db conference year) (papers db).

(** The papers of a (conference, year) that have no summary, whether or
    not they have an abstract. *)
Definition unsummarized (db : database) (conference : string) (year : Z)
  : list paper_row :=
  List.filter
    (fun p => String.eqb (paper_conference p) conference
              && (paper_year p =? year)
              && negb (has_summary db (paper_id p)))
    (papers db).

Definition row_id (row : Z * string * string) : Z := row.1.1.

Definition ceil_div (b n : Z) : Z := (b + n - 1) / n.

(** An element [{id, tldr_en, tldr_zh}] of a well-formed answer. *)
Definition well_formed_item (item : pyval) (id : Z) : Prop :=
  exists fields en zh,
    item = JObj fields
    /\ assoc "id" fields = Some (JNum id)
    /\ assoc "tldr_en" fields = Some (JStr en)
    /\ assoc "tldr_zh" fields = Some (JStr zh).

(** A well-formed answer to a batch: a JSON array of the length of the
    batch, of well-formed elements, that covers every submitted id. *)
Definition well_formed_reply (batch : list (Z * string * string))
    (a : res reply) : Prop :=
  exists r items ids,
    a = Ok r
    /\ reply_json r = Some (JArr items)
    /\ Forall2 well_formed_item items ids
    /\ length ids = length batch
    /\ forall id, id ∈ map row_id batch -> id ∈ ids.

(** A summary tuple whose texts the driver can bind. *)
Definition storable (row : Z * pyval * pyval) : Prop :=
  bindable row.1.2 = true /\ bindable row.2 = true.

Definition well_behaved (llm : collaborator) : Prop :=
  forall k batch,
    batch <> [] ->
    well_formed_reply batch (llm k (SummarizePrompt batch) false).

(** ** Code verification *)

Definition none_verdict : verdict :=
  {| status := "None"; has_readme := false; has_code := false;
     last_commit := JNull |}.

(** What the requests of steps 1 to 4 found out about a repository. *)
Record repo_facts : Type := {
  rf_owner : string;
  rf_repo : string;
  rf_meta : pyval;
  rf_size_positive : bool;
  rf_commit_date : pyval;
  rf_pushed_at : pyval;
  rf_code_found : bool
}.

(** [last_commit]: the date of the latest commit, else [pushed_at]. *)
Definition rf_last_commit (f : repo_facts) : pyval :=
  py_or (rf_commit_date f) (rf_pushed_at f).

(** The repository of [url] was reached and each of the requests of
    steps 1 to 4 returned. *)
Definition reached (requests_get : http) (url : string)
    (token : option string) (f : repo_facts) : Prop :=
  take 2 (url_parts url) = [rf_owner f; rf_repo f]
  /\ fetch_repo_metadata requests_get url token = Ok (rf_meta f)
  /\ truthy (rf_meta f) = true
  /\ (exists size, get (rf_meta f) "size" (JNum 0) = Ok size
                   /\ gt_zero size = Ok (rf_size_positive f))
  /\ get (rf_meta f) "pushed_at" JNull = Ok (rf_pushed_at f)
  /\ fetch_latest_commit_date requests_get (rf_owner f) (rf_repo f) token
     = Ok (rf_commit_date f)
  /\ _check_code_files requests_get (rf_owner f) (rf_repo f) token
     = Ok (rf_code_found f).

(** A [dict] of the root listing with the file name [n]. *)
Definition entry_named (item : pyval) (n : string) : Prop :=
  exists fields, item = JObj fields /\ assoc "name" fields = Some (JStr n).


(** ** Sample data *)

Definition empty_db : database :=
  {| conferences := []; conferences_seq := 0; papers := [];
     summaries := []; summaries_seq := 0;
     clusters := []; clusters_seq := 0 |}.

Definition mk_conf (n : string) (y : Z) : ConferenceConfig :=
  {| name := n; year := y; arxiv_categories := ["cs.LG"]; keywords := [];
     source_priority := None; openreview := None; official_site := None |}.

Definition icml : ConferenceConfig := mk_conf "icml" 2024.
Definition nofeed : ConferenceConfig := mk_conf "Workshop" 2024.

Definition sample_deadlines : gmap string string :=
  <["ICML" := "2024-01-15"]> (<["ICLR" := "2023-09-28T23:59:59Z"]> ∅).

(** A clock that shows noon of the day with ordinal [d], one second
    later at each reading. *)
Definition clock_on (d : date) (k : nat) : datetime :=
  {| dt_ord := d; dt_micro := (43200 + Z.of_nat k) * 1000000;
     dt_offset := None |}.

Definition fresh_world : world := {| w_db := empty_db; w_tick := 0 |}.

(** Two runs on consecutive days: readings 0 and 1 fall on 2024-01-22,
    readings 2 and 3 on 2024-01-23. *)
Definition two_days_clock (k : nat) : datetime :=
  clock_on (ymd2ord 2024 1 22 + Z.of_nat (k / 2)) k.

(** The store as [setup_db.py] leaves it: the conference registered
    without a deadline. *)
Definition registered_db : database :=
  upsert_conference "icml" 2024 None empty_db.

Definition record (title : string) (source_tag : string) : Collector.paper :=
  <["title" := JStr title]> (<["authors" := JStr source_tag]> ∅).

Definition monitoring : MonitoringConfig :=
  {| deadline_lag_days := 7; arxiv_max_results := 50; arxiv_batch_days := 30 |}.

(** OpenReview returns a record without a title and one paper; arXiv
    returns the same paper with another capitalization. *)
Definition openreview_result (_ : ConferenceConfig) : list Collector.paper :=
  [record "" "or-0"; record "Attention Is All You Need" "or-1"].

Definition official_result (_ : ConferenceConfig) : list Collector.paper := [].

Definition arxiv_result (_ : string) (_ : Z) (_ _ : list string) (_ _ : Z)
  : list Collector.paper :=
  [record "ATTENTION IS ALL YOU NEED" "ax-1"; record "Mamba" "ax-2"].

(** A collaborator whose answers never parse. *)
Definition babbling_llm : collaborator :=
  fun _ _ _ => Ok {| reply_text := "Sure! Here is the JSON you asked for";
                     reply_json := None |}.

Definition item_of (row : Z * string * string) : pyval :=
  JObj [("id", JNum (row_id row));
        ("tldr_en", JStr row.1.2); ("tldr_zh", JStr row.1.2)].

(** A collaborator that answers a batch with one element per paper. *)
Definition diligent_llm : collaborator :=
  fun _ p _ =>
    match p with
    | SummarizePrompt payload =>
        Ok {| reply_text := ""; reply_json := Some (JArr (map item_of payload)) |}
    | _ => Error RequestException
    end.


Definition paper_n (abstract : option string) (i : nat) : paper_row :=
  {| paper_id := Z.of_nat i; paper_conference := "icml"; paper_year := 2024;
     paper_source := Some "arxiv"; paper_title := "paper";
     paper_abstract := abstract; paper_pdf_url := None;
     paper_arxiv_id := None; paper_created_at := Some "2024-01-22 12:00:00" |}.

Definition db_with (rows : list paper_row) : database :=
  {| conferences := []; conferences_seq := 0; papers := rows;
     summaries := []; summaries_seq := 0;
     clusters := []; clusters_seq := 0 |}.

(** 25 papers with an abstract. *)
Definition backlog_25 : database :=
  db_with (map (paper_n (Some "abstract")) (seq 1 25)).

(** 25 papers, the last 5 without an abstract. *)
Definition backlog_20_of_25 : database :=
  db_with (map (paper_n (Some "abstract")) (seq 1 20)
           ++ map (paper_n None) (seq 21 5)).

(** Paper 1 has no abstract, paper 2 has one. *)
Definition one_null_abstract : database :=
  db_with [paper_n None 1; paper_n (Some "abstract") 2].

Definition new_client : client := {| requests := 0; tools := [] |}.

(** A GitHub that knows the repository acme/model: 120 KB, last commit on
    2024-02-01, a [train.py] at the root, a readme. *)
Definition sample_github : http :=
  fun url _ =>
    if String.eqb url "https://api.github.com/repos/acme/model" then
      Ok {| status_code := 200;
            json := Some (JObj [("size", JNum 120);
                                ("pushed_at", JStr "2024-03-01T00:00:00Z")]) |}
    else if String.eqb url
              "https://api.github.com/repos/acme/model/commits?per_page=1" then
      Ok {| status_code := 200;
            json := Some (JArr [JObj [("commit",
                            JObj [("author",
                              JObj [("date", JStr "2024-02-01T10:00:00Z")])])]]) |}
    else if String.eqb url
              "https://api.github.com/repos/acme/model/contents" then
      Ok {| status_code := 200;
            json := Some (JArr [JObj [("name", JStr "README.md")];
                                JObj [("name", JStr "Train.PY")]]) |}
    else if String.eqb url
              "https://api.github.com/repos/acme/model/readme" then
      Ok {| status_code := 200;
            json := Some (JObj [("content", JStr "Q29kZSBjb21pbmcgc29vbg==")]) |}
    else Ok {| status_code := 404; json := None |}.

(** The decoder on the sample readme. *)
Definition sample_b64decode (_ : string) : option string :=
  Some "Code coming soon".

Definition sample_url : string := "https://github.com/acme/model/".


(** A collaborator that plans one call of the tool, judges every readme
    a placeholder, and reports the executed calls. *)
Definition strict_reviewer : collaborator :=
  fun _ p _ =>
    match p with
    | PlanPrompt _ _ payload =>
        Ok {| reply_text := "";
              reply_json :=
                Some (JArr [JObj [("tool", JStr "check_placeholder");
                                  ("input", payload)]]) |}
    | PlaceholderPrompt _ => Ok {| reply_text := "True"; reply_json := None |}
    | ToolSummaryPrompt _ executed =>
        Ok {| reply_text := "";
              reply_json := Some (JObj [("calls", JArr executed)]) |}
    | SummarizePrompt _ => Error RequestException
    end.

End Spec.

(** ** More of the trigger engine: what a run keeps *)

Module TriggerSpec.
Import Py Datetime Config Db CcfMonitor Spec.

(** Two rows that differ at most in [triggered_at]. *)
Definition same_but_stamp (r r' : conference_row) : Prop :=
  conf_id r' = conf_id r
  /\ conf_name r' = conf_name r
  /\ conf_year r' = conf_year r
  /\ conf_deadline r' = conf_deadline r.

(** The table after a statement: the rows it had, in place and changed at
    most in [triggered_at], followed by new rows. *)
Definition grown_from (rows rows' : list conference_row) : Prop :=
  exists kept added, rows' = kept ++ added /\ Forall2 same_but_stamp rows kept.

(** The (name, year) keys of the table, the columns of its UNIQUE
    constraint. *)
Definition conf_keys (db : database) : list (string * Z) :=
  map (fun r => (conf_name r, conf_year r)) (conferences db).

(** Some configured conference has the key (n, y). *)
Definition configured (confs : list ConferenceConfig) (n : string) (y : Z)
  : Prop :=
  exists conf, conf ∈ confs /\ name conf = n /\ year conf = y.

End TriggerSpec.

(** ** More of the collector *)

Module CollectorSpec.
Import Py Config Collector Spec.

(** The test of [title_is_str]. *)
Definition title_is_str_b (p : paper) : bool :=
  match p !! "title" with
  | Some (JStr _) | None => true
  | Some _ => false
  end.

(** The source names [collect_papers] has an adapter for. *)
Definition recognized_source (source : string) : Prop :=
  source = "openreview" \/ source = "official" \/ source = "arxiv".

End CollectorSpec.

(** ** More of the summarization loop *)

Module WorkflowSpec.
Import Py Db Llm Workflow Spec.

(** A collaborator none of whose answers can be used: each fails to parse
    or parses to a falsy value ([null], [[]], [{}], [0], [""]). *)
Definition unusable (llm : collaborator) : Prop :=
  forall k p force_object,
    match loads (llm k p force_object) with
    | Some v => truthy v = false
    | None => True
    end.

(** The ids a list of summary tuples names. *)
Definition named_ids (rows : list (Z * pyval * pyval)) : list Z :=
  map (fun r => r.1.1) rows.

(** The texts stored for a paper. *)
Definition stored_texts (db : database) (pid : Z) : list (pyval * pyval) :=
  map (fun s => (summary_tldr_en s, summary_tldr_zh s))
      (List.filter (fun s => summary_paper_id s =? pid) (summaries db)).

(** A collaborator that answers an empty array. *)
Definition idle_llm : collaborator :=
  fun _ _ _ => Ok {| reply_text := "[]"; reply_json := Some (JArr []) |}.

End WorkflowSpec.

(** ** Sample data for the code verifier *)

Module VerifierSpec.
Import Py Llm CodeVerifier Spec.

(** A GitHub that knows the repository acme/fresh, 3 KB and pushed on
    2024-03-01, and answers 404 to every other request, the commits of
    acme/fresh among them. *)
Definition bare_github : http :=
  fun url _ =>
    if String.eqb url "https://api.github.com/repos/acme/fresh" then
      Ok {| status_code := 200;
            json := Some (JObj [("size", JNum 3);
                                ("pushed_at", JStr "2024-03-01T00:00:00Z")]) |}
    else Ok {| status_code := 404; json := None |}.

Definition bare_facts : repo_facts :=
  {| rf_owner := "acme"; rf_repo := "fresh";
     rf_meta := JObj [("size", JNum 3);
                      ("pushed_at", JStr "2024-03-01T00:00:00Z")];
     rf_size_positive := true;
     rf_commit_date := JNull;
     rf_pushed_at := JStr "2024-03-01T00:00:00Z";
     rf_code_found := false |}.

End VerifierSpec.


(** * Part III: properties *)

(** ** Trigger engine: selection, upsert, stamping *)

Module TriggerProofs.
Import Py Datetime Config Db CcfMonitor Spec.

Lemma truthy_str_false (s : string) : truthy_str s = false -> s = "".
Proof. destruct s; [reflexivity | discriminate]. Qed.

Lemma parse_deadline_empty : parse_deadline "" = None.
Proof. reflexivity. Qed.

Lemma activates_b_spec deadlines lag today conf :
  activates_b deadlines lag today conf = true
  <-> activates deadlines lag today conf.
Proof.
  unfold activates_b, activates. split.
  - destruct (deadlines !! upper (name conf)) as [s|]; [|discriminate].
    destruct (parse_deadline s) as [dt|] eqn:Hp; [|discriminate].
    intros H%Z.leb_le. exists s, dt. split; [|split]; done.
  - intros (s & dt & -> & -> & H). by apply Z.leb_le.
Qed.

Lemma date_add_days_ok d n :
  (0 <? d + n) && (d + n <=? MAXORDINAL) = true ->
  date_add_days d n = Ok (d + n).
Proof. unfold date_add_days. by intros ->. Qed.

Section Run.

Variable utcnow : nat -> datetime.

(** The loop returns the configured conferences that pass the test,
    in order, after those already selected. *)
Lemma select_loop_result today deadlines lag confs acc w :
  due_dates_representable deadlines lag confs = true ->
  exists w',
    select_loop utcnow today deadlines lag confs acc w
    = (Ok (acc ++ List.filter (activates_b deadlines lag today) confs), w').
Proof.
  revert acc w. induction confs as [|conf rest IH]; intros acc w Hrep.
  - exists w. simpl. by rewrite app_nil_r.
  - simpl in Hrep. apply andb_prop in Hrep as [Hc Hrest].
    unfold due_date_representable in Hc.
    cbn [select_loop List.filter]. unfold activates_b at 1.
    destruct (deadlines !! upper (name conf)) as [s|] eqn:Hs.
    + destruct (truthy_str s) eqn:Ht; cbn [negb].
      * destruct (parse_deadline s) as [dt|] eqn:Hp.
        -- rewrite (date_add_days_ok _ _ Hc).
           destruct (date_of dt + lag <=? today).
           ++ edestruct IH as [w' ->]; [done|].
              exists w'. by rewrite <- app_assoc.
           ++ by apply IH.
        -- by apply IH.
      * apply truthy_str_false in Ht as ->.
        rewrite parse_deadline_empty. by apply IH.
    + by apply IH.
Qed.

End Run.

Section Stamps.

Variable utcnow : nat -> datetime.

Lemma select_loop_cons today deadlines lag conf rest acc w :
  select_loop utcnow today deadlines lag (conf :: rest) acc w =
  let w1 := do_upsert (name conf) (year conf)
              (deadlines !! upper (name conf)) w in
  match decide_conf deadlines lag today conf with
  | Skip => select_loop utcnow today deadlines lag rest acc w1
  | Fire => select_loop utcnow today deadlines lag rest (acc ++ [conf])
              (do_mark utcnow (name conf) (year conf) w1)
  | Fail e => (Error e, w1)
  end.
Proof.
  cbn [select_loop]. unfold decide_conf.
  destruct (deadlines !! upper (name conf)) as [s|]; [|reflexivity].
  destruct (truthy_str s) eqn:Ht; cbn [negb].
  - destruct (parse_deadline s); [|reflexivity].
    destruct (date_add_days _ _); [|reflexivity].
    by destruct (_ <=? _).
  - apply truthy_str_false in Ht as ->. by rewrite parse_deadline_empty.
Qed.

Lemma conf_key_is_eq n y n' y' r :
  conf_key_is n y r = true -> conf_key_is n' y' r = true ->
  n' = n /\ y' = y.
Proof.
  unfold conf_key_is. intros [H1 H2]%andb_prop [H3 H4]%andb_prop.
  apply String.eqb_eq in H1, H3. apply Z.eqb_eq in H2, H4.
  split; congruence.
Qed.

Lemma filter_existsb_false {A : Type} (f : A -> bool) (l : list A) :
  existsb f l = false -> List.filter f l = [].
Proof.
  induction l as [|a l IH]; [done|]. cbn.
  intros [Ha Hl]%orb_false_elim. rewrite Ha. auto.
Qed.

Lemma stamps_upsert n' y' d db n y :
  stamps_kept db (upsert_conference n' y' d db) n y.
Proof.
  unfold stamps_kept, upsert_conference.
  destruct (existsb _ _) eqn:Hex; [by left|].
  unfold stamps. cbn [conferences set_conferences].
  rewrite List.filter_app, map_app. cbn [List.filter].
  destruct (conf_key_is n y _) eqn:Hk; cbn [map].
  - right. unfold conf_key_is in Hk. cbn in Hk.
    apply andb_prop in Hk as [->%String.eqb_eq ->%Z.eqb_eq].
    by rewrite (filter_existsb_false _ _ Hex).
  - left. by rewrite app_nil_r.
Qed.

Lemma stamps_mark_other t n' y' db n y :
  ~ (n' = n /\ y' = y) ->
  stamps (mark_conference_triggered t n' y' db) n y = stamps db n y.
Proof.
  intros Hne. unfold stamps, mark_conference_triggered.
  cbn [conferences set_conferences].
  induction (conferences db) as [|r rows IH]; [done|].
  cbn [map List.filter].
  destruct (conf_key_is n' y' r) eqn:Hk'.
  - replace (conf_key_is n y (stamp t r)) with (conf_key_is n y r)
      by reflexivity.
    destruct (conf_key_is n y r) eqn:Hk.
    + destruct Hne. eapply conf_key_is_eq; eauto.
    + apply IH.
  - destruct (conf_key_is n y r); cbn [map]; by rewrite IH.
Qed.

Lemma stamps_mark_same t n y db :
  stamps (mark_conference_triggered t n y db) n y
  = map (fun _ => Some t) (stamps db n y).
Proof.
  unfold stamps, mark_conference_triggered.
  cbn [conferences set_conferences].
  induction (conferences db) as [|r rows IH]; [done|].
  cbn [map List.filter].
  destruct (conf_key_is n y r) eqn:Hk.
  - replace (conf_key_is n y (stamp t r)) with (conf_key_is n y r)
      by reflexivity.
    rewrite Hk. cbn [map]. by rewrite IH.
  - rewrite Hk. apply IH.
Qed.

Lemma stamped_during_weaken t0 t1 t1' db n y :
  (t1 <= t1')%nat ->
  stamped_during utcnow t0 t1 db n y -> stamped_during utcnow t0 t1' db n y.
Proof.
  intros Hle [Hne Hall]. split; [done|].
  eapply Forall_impl; [exact Hall|].
  intros s (k & Hk & ->). exists k. split; [lia|done].
Qed.

Lemma stamped_during_upsert t0 t1 n' y' d db n y :
  stamped_during utcnow t0 t1 db n y ->
  stamped_during utcnow t0 t1 (upsert_conference n' y' d db) n y.
Proof.
  intros [Hne Hall]. unfold stamped_during.
  destruct (stamps_upsert n' y' d db n y) as [-> | [Hnil _]]; [done|].
  by destruct Hne.
Qed.

Lemma stamped_during_mark t0 k n' y' db n y :
  (t0 <= k)%nat ->
  stamped_during utcnow t0 k db n y ->
  stamped_during utcnow t0 (S k)
    (mark_conference_triggered (utcnow k) n' y' db) n y.
Proof.
  intros Hle Hst.
  destruct (decide (n' = n /\ y' = y)) as [[-> ->] | Hne].
  - destruct Hst as [Hne Hall]. unfold stamped_during.
    rewrite stamps_mark_same. split.
    + by destruct (stamps db n y).
    + apply Forall_map, Forall_forall. intros s _. exists k.
      split; [lia|done].
  - apply stamped_during_weaken with k; [lia|].
    unfold stamped_during. by rewrite stamps_mark_other.
Qed.

Lemma stamps_upsert_nonempty n y d db :
  stamps (upsert_conference n y d db) n y <> [].
Proof.
  unfold upsert_conference, stamps.
  destruct (existsb (conf_key_is n y) (conferences db)) eqn:Hex.
  - apply existsb_exists in Hex as (r & Hr & Hk).
    intros Hnil%map_eq_nil.
    assert (In r (List.filter (conf_key_is n y) (conferences db)))
      as Hin by (apply filter_In; auto).
    rewrite Hnil in Hin. destruct Hin.
  - cbn [conferences set_conferences].
    rewrite List.filter_app, map_app. cbn [List.filter].
    assert (conf_key_is n y
              {| conf_id := conferences_seq db + 1; conf_name := n;
                 conf_year := y; conf_deadline := d;
                 conf_triggered_at := None |} = true) as ->.
    { unfold conf_key_is. cbn. by rewrite String.eqb_refl, Z.eqb_refl. }
    cbn [map]. by destruct (map _ _).
Qed.

Lemma stamped_after_mark n y d w :
  stamped_during utcnow (w_tick w) (S (w_tick w))
    (w_db (do_mark utcnow n y (do_upsert n y d w))) n y.
Proof.
  unfold do_mark, do_upsert, read_clock. cbn [w_db w_tick].
  unfold stamped_during. rewrite stamps_mark_same.
  pose proof (stamps_upsert_nonempty n y d (w_db w)) as Hne.
  split.
  - by destruct (stamps _ n y).
  - apply Forall_map, Forall_forall. intros s _. exists (w_tick w).
    split; [lia|done].
Qed.

(** A stamp of this run survives the rest of the loop. *)
Lemma select_loop_preserves today deadlines lag confs acc w r w' t0 t1 n y :
  select_loop utcnow today deadlines lag confs acc w = (r, w') ->
  (t0 <= t1 <= w_tick w)%nat ->
  stamped_during utcnow t0 t1 (w_db w) n y ->
  (w_tick w <= w_tick w')%nat
  /\ stamped_during utcnow t0 (w_tick w') (w_db w') n y.
Proof.
  revert acc w t1. induction confs as [|conf rest IH]; intros acc w t1.
  - cbn. intros [= <- <-] Hle Hst. split; [lia|].
    eapply stamped_during_weaken; [|exact Hst]. lia.
  - rewrite select_loop_cons. cbn zeta. intros Hrun Hle Hst.
    pose proof (stamped_during_upsert _ _ (name conf) (year conf)
                  (deadlines !! upper (name conf)) _ _ _ Hst) as Hst1.
    destruct (decide_conf deadlines lag today conf).
    + eapply IH in Hrun; [exact Hrun| |exact Hst1]. exact Hle.
    + eapply IH in Hrun as [Hle' Hst'].
      * split; [|exact Hst']. cbn in Hle'. lia.
      * cbn [do_mark do_upsert read_clock w_tick].
        instantiate (1 := S (w_tick w)). lia.
      * cbn [do_mark do_upsert read_clock w_tick w_db].
        apply stamped_during_mark; [lia|].
        eapply stamped_during_weaken; [|exact Hst1]. lia.
    + injection Hrun as <- <-. split; [done|]. cbn [do_upsert w_tick w_db].
      eapply stamped_during_weaken; [|exact Hst1]. lia.
Qed.

Lemma stamps_kept_trans db1 db2 db3 n y :
  stamps_kept db1 db2 n y -> stamps_kept db2 db3 n y ->
  stamps_kept db1 db3 n y.
Proof.
  unfold stamps_kept.
  intros [H12 | [H1 H2]] [H23 | [H2' H3]].
  - left. congruence.
  - right. split; congruence.
  - right. split; congruence.
  - congruence.
Qed.

(** The selection loop: what it appends is stamped during the loop,
    and the stamps of every other key are kept. *)
Lemma select_loop_stamps today deadlines lag confs acc w l w' :
  select_loop utcnow today deadlines lag confs acc w = (Ok l, w') ->
  exists sel,
    l = acc ++ sel
    /\ (forall conf, conf ∈ sel ->
          stamped_during utcnow (w_tick w) (w_tick w') (w_db w')
            (name conf) (year conf))
    /\ (forall n y,
          (forall conf, conf ∈ sel -> ~ (name conf = n /\ year conf = y)) ->
          stamps_kept (w_db w) (w_db w') n y).
Proof.
  revert acc w. induction confs as [|conf rest IH]; intros acc w.
  - cbn. intros [= <- <-]. exists []. rewrite app_nil_r.
    split; [done|]. split.
    + intros conf Hin. by apply elem_of_nil in Hin.
    + intros n y _. by left.
  - rewrite select_loop_cons. cbn zeta. intros Hrun.
    pose proof (stamps_upsert (name conf) (year conf)
                  (deadlines !! upper (name conf)) (w_db w)) as Hup.
    destruct (decide_conf deadlines lag today conf); [| |discriminate].
    + apply IH in Hrun as (sel & -> & Hsel & Hkept).
      exists sel. split; [done|]. split; [exact Hsel|].
      intros n y Hout. eapply stamps_kept_trans; [apply Hup|].
      by apply Hkept.
    + pose proof Hrun as Hrun'.
      apply IH in Hrun as (sel & -> & Hsel & Hkept).
      exists (conf :: sel). split; [by rewrite <- app_assoc|]. split.
      * intros c [-> | Hin]%elem_of_cons.
        -- eapply select_loop_preserves in Hrun' as [_ Hst];
             [exact Hst| |apply stamped_after_mark].
           cbn [do_mark do_upsert read_clock w_tick]. lia.
        -- apply Hsel in Hin. destruct Hin as [Hne Hall].
           split; [done|]. eapply Forall_impl; [exact Hall|].
           intros s (k & Hk & ->). exists k. split; [|done].
           cbn [do_mark do_upsert read_clock w_tick] in Hk. lia.
      * intros n y Hout. eapply stamps_kept_trans; [apply Hup|].
        eapply stamps_kept_trans; [|apply Hkept].
        -- left. cbn [do_mark do_upsert read_clock w_tick w_db].
           apply stamps_mark_other. apply Hout. by left.
        -- intros c Hc. apply Hout. by right.
Qed.

End Stamps.



Example activates_on_lag_day :
  (select_triggered_conferences (clock_on (ymd2ord 2024 1 22))
     [icml; nofeed] sample_deadlines 7 fresh_world).1 = Ok [icml].
Proof. vm_compute. reflexivity. Qed.

Example dormant_on_day_before :
  (select_triggered_conferences (clock_on (ymd2ord 2024 1 21))
     [icml; nofeed] sample_deadlines 7 fresh_world).1 = Ok [].
Proof. vm_compute. reflexivity. Qed.

(** A trailing [Z] is read as UTC: 2023-09-28T23:59:59Z with a lag of 7
    days activates on 2023-10-05. *)
Example zulu_deadline_parses :
  (select_triggered_conferences (clock_on (ymd2ord 2023 10 5))
     [mk_conf "iclr" 2024] sample_deadlines 7 fresh_world).1
  = Ok [mk_conf "iclr" 2024].
Proof. vm_compute. reflexivity. Qed.

(** Outside the representable dates the comparison raises
    [OverflowError] and the run stops. *)
Example overflowing_due_date :
  (select_triggered_conferences (clock_on (ymd2ord 2024 1 22))
     [icml; mk_conf "far" 2024]
     (<["FAR" := "9999-12-31"]> sample_deadlines) 7 fresh_world).1
  = Error OverflowError.
Proof. vm_compute. reflexivity. Qed.

Lemma upsert_conference_existing n y d db :
  existsb (conf_key_is n y) (conferences db) = true ->
  upsert_conference n y d db = db.
Proof. unfold upsert_conference. by intros ->. Qed.

(** C5. Every configured conference is upserted on every run and the
    stored deadline is the one the feed supplies: evaluated on a store
    that already has the row.  The conference is registered (as
    [setup_db.py] does, without a deadline), the feed then supplies
    2024-01-15, the run selects the conference, and the stored deadline
    is still NULL: [INSERT OR IGNORE] does not refresh it. *)
Theorem upsert_does_not_refresh_deadline :
  let w0 := {| w_db := registered_db; w_tick := 0 |} in
  let run := select_triggered_conferences (clock_on (ymd2ord 2024 1 22))
               [icml] sample_deadlines 7 w0 in
  sample_deadlines !! upper (name icml) = Some "2024-01-15"
  /\ run.1 = Ok [icml]
  /\ stored_deadlines (w_db run.2) "icml" 2024 = [None].
Proof. vm_compute. repeat split. Qed.

(** C6, as stated, fails: a second run over the same conference stamps
    [triggered_at] again.  The first run (readings 0 and 1 of the clock)
    stores the reading 1, the second run (readings 2 and 3) replaces it
    by the reading 3. *)
Lemma retrigger_overwrites_triggered_at :
  let run1 := select_triggered_conferences two_days_clock
                [icml] sample_deadlines 7 fresh_world in
  let run2 := select_triggered_conferences two_days_clock
                [icml] sample_deadlines 7 run1.2 in
  stamps (w_db run1.2) "icml" 2024 = [Some (two_days_clock 1)]
  /\ stamps (w_db run2.2) "icml" 2024 = [Some (two_days_clock 3)]
  /\ two_days_clock 1 <> two_days_clock 3.
Proof. vm_compute. repeat split. discriminate. Qed.

(** C6, amended. A run of the trigger engine stamps [triggered_at] of
    every configured conference whose activation condition holds with a
    clock reading of that run, whatever was stored before; the
    [triggered_at] of a (name, year) that no activated conference has is
    left as it was (NULL when the row is new). *)
Theorem triggered_at_restamped_on_activation
    (utcnow : nat -> datetime) (confs : list ConferenceConfig)
    (deadlines : gmap string string) (lag_days : Z) (w : world) :
  due_dates_representable deadlines lag_days confs = true ->
  let today := date_of (utcnow (w_tick w)) in
  exists triggered w',
    select_triggered_conferences utcnow confs deadlines lag_days w
    = (Ok triggered, w')
    /\ (forall conf, conf ∈ confs -> activates deadlines lag_days today conf ->
          stamped_during utcnow (S (w_tick w)) (w_tick w') (w_db w')
            (name conf) (year conf))
    /\ (forall n y,
          (forall conf, conf ∈ confs -> activates deadlines lag_days today conf ->
             ~ (name conf = n /\ year conf = y)) ->
          stamps_kept (w_db w) (w_db w') n y).
Proof.
  intros Hrep today. unfold select_triggered_conferences, read_clock.
  destruct (select_loop_result utcnow today deadlines lag_days confs []
              {| w_db := w_db w; w_tick := S (w_tick w) |} Hrep) as [w' Hrun].
  eexists _, w'. split; [exact Hrun|].
  apply select_loop_stamps in Hrun as (sel & Hsel & Hst & Hkept).
  rewrite !app_nil_l in Hsel. subst sel.
  assert (forall conf, conf ∈ List.filter (activates_b deadlines lag_days today) confs
            <-> conf ∈ confs /\ activates deadlines lag_days today conf) as Hmem.
  { intros conf. rewrite <- activates_b_spec.
    rewrite !list_elem_of_In, filter_In. tauto. }
  split.
  - intros conf Hin Hact. apply (Hst conf). apply Hmem. auto.
  - intros n y Hout. apply (Hkept n y). intros conf [Hin Hact]%Hmem. auto.
Qed.

Lemma triggered_at_restamped_on_activation_witness :
  due_dates_representable sample_deadlines 7 [icml; nofeed] = true
  /\ exists triggered w',
       select_triggered_conferences two_days_clock [icml; nofeed]
         sample_deadlines 7 fresh_world = (Ok triggered, w')
       /\ (forall conf, conf ∈ [icml; nofeed] ->
             activates sample_deadlines 7
               (date_of (two_days_clock (w_tick fresh_world))) conf ->
             stamped_during two_days_clock (S (w_tick fresh_world))
               (w_tick w') (w_db w') (name conf) (year conf))
       /\ (forall n y,
             (forall conf, conf ∈ [icml; nofeed] ->
                activates sample_deadlines 7
                  (date_of (two_days_clock (w_tick fresh_world))) conf ->
                ~ (name conf = n /\ year conf = y)) ->
             stamps_kept (w_db fresh_world) (w_db w') n y).
Proof.
  split; [reflexivity|].
  apply (triggered_at_restamped_on_activation two_days_clock [icml; nofeed]
           sample_deadlines 7 fresh_world).
  reflexivity.
Defined.

End TriggerProofs.

(** ** Storage: cluster assignments *)

Module ClusterProofs.
Import Db Spec.

Lemma stored_after_inserts conference year assignments db :
  stored_assignments conference year
    (foldl (fun d a => insert_cluster conference year a d) db assignments)
  = stored_assignments conference year db ++ assignments.
Proof.
  revert db. induction assignments as [|[pid label] rest IH]; intros db.
  - cbn. by rewrite app_nil_r.
  - cbn [foldl]. rewrite IH. unfold stored_assignments, insert_cluster.
    cbn [clusters set_clusters]. rewrite List.filter_app, map_app.
    cbn [List.filter]. unfold cluster_scope_is at 2. cbn.
    rewrite String.eqb_refl, Z.eqb_refl. cbn. by rewrite <- app_assoc.
Qed.

Lemma other_scope_after_inserts conference year assignments db c y :
  ~ (c = conference /\ y = year) ->
  List.filter (cluster_scope_is c y)
    (clusters (foldl (fun d a => insert_cluster conference year a d) db
                 assignments))
  = List.filter (cluster_scope_is c y) (clusters db).
Proof.
  intros Hne. revert db.
  induction assignments as [|a rest IH]; intros db; [done|].
  cbn [foldl]. rewrite IH. unfold insert_cluster.
  cbn [clusters set_clusters]. rewrite List.filter_app. cbn [List.filter].
  unfold cluster_scope_is at 2. cbn.
  destruct (String.eqb conference c) eqn:Hc, (year =? y) eqn:Hy; cbn;
    try by rewrite app_nil_r.
  apply String.eqb_eq in Hc. apply Z.eqb_eq in Hy. destruct Hne. auto.
Qed.

Lemma filter_filter_neg {A : Type} (f g : A -> bool) (l : list A) :
  (forall x, f x = true -> g x = false) ->
  List.filter f (List.filter (fun x => negb (g x)) l) = List.filter f l.
Proof.
  intros Hfg. induction l as [|a l IH]; [done|]. cbn.
  destruct (g a) eqn:Hg; cbn.
  - destruct (f a) eqn:Hf; [|done]. apply Hfg in Hf. congruence.
  - destruct (f a); by rewrite IH.
Qed.

Lemma filter_all_false {A : Type} (f g : A -> bool) (l : list A) :
  (forall x, f x = true -> g x = true) ->
  List.filter f (List.filter (fun x => negb (g x)) l) = [].
Proof.
  intros Hfg. induction l as [|a l IH]; [done|]. cbn.
  destruct (g a) eqn:Hg; cbn; [done|].
  destruct (f a) eqn:Hf; [|done]. apply Hfg in Hf. congruence.
Qed.

Lemma scope_disjoint c y conference year r :
  ~ (c = conference /\ y = year) ->
  cluster_scope_is c y r = true -> cluster_scope_is conference year r = false.
Proof.
  unfold cluster_scope_is. intros Hne [H1 H2]%andb_prop.
  apply String.eqb_eq in H1. apply Z.eqb_eq in H2.
  destruct (String.eqb _ conference) eqn:H3; [|done].
  destruct (_ =? year) eqn:H4; [|done].
  apply String.eqb_eq in H3. apply Z.eqb_eq in H4.
  destruct Hne. split; congruence.
Qed.

(** C7. Clustering is fully replacing: after [save_clusters] the
    assignments stored for the (conference, year) are exactly those of
    the call; a second call leaves only the second list; the rows of
    every other (conference, year) are untouched. *)
Theorem save_clusters_fully_replaces
    (conference : string) (year : Z) (first second : list (Z * string))
    (db : database) :
  stored_assignments conference year
    (save_clusters conference year first db) = first
  /\ stored_assignments conference year
       (save_clusters conference year second
          (save_clusters conference year first db)) = second
  /\ forall c y, ~ (c = conference /\ y = year) ->
       List.filter (cluster_scope_is c y)
         (clusters (save_clusters conference year first db))
       = List.filter (cluster_scope_is c y) (clusters db).
Proof.
  assert (forall a d, stored_assignments conference year
                        (save_clusters conference year a d) = a) as Hrepl.
  { intros a d. unfold save_clusters. rewrite stored_after_inserts.
    unfold stored_assignments. cbn [clusters set_clusters].
    rewrite filter_all_false; [done|auto]. }
  split; [apply Hrepl|]. split; [apply Hrepl|].
  intros c y Hne. unfold save_clusters.
  rewrite other_scope_after_inserts by done.
  cbn [clusters set_clusters]. apply filter_filter_neg.
  intros r. by apply scope_disjoint.
Qed.

End ClusterProofs.

(** ** Collector: deduplication by case-folded title *)

Module CollectorProofs.
Import Py Config Collector Spec.

Lemma title_key_str p : title_is_str p -> title_key p = Ok (key_of p).
Proof.
  unfold title_is_str, title_key, key_of.
  destruct (p !! "title") as [[]|]; cbn; done.
Qed.

Lemma dedup_kept l seen collected :
  Forall title_is_str l ->
  dedup l seen collected = Ok (seen_after seen l, collected ++ kept seen l).
Proof.
  revert seen collected.
  induction l as [|p r IH]; intros seen collected Hstr.
  - cbn. by rewrite app_nil_r.
  - apply Forall_cons in Hstr as [Hp Hr]. cbn [dedup kept seen_after].
    rewrite (title_key_str p Hp).
    destruct (truthy_str (key_of p) && negb (bool_decide (key_of p ∈ seen))).
    + rewrite IH by done. by rewrite <- app_assoc.
    + by apply IH.
Qed.

Lemma kept_app seen l1 l2 :
  kept seen (l1 ++ l2) = kept seen l1 ++ kept (seen_after seen l1) l2.
Proof.
  revert seen. induction l1 as [|p r IH]; intros seen; [done|].
  cbn [app kept seen_after].
  destruct (truthy_str (key_of p) && negb (bool_decide (key_of p ∈ seen)));
    cbn; by rewrite IH.
Qed.

Lemma seen_after_app seen l1 l2 :
  seen_after seen (l1 ++ l2) = seen_after (seen_after seen l1) l2.
Proof.
  revert seen. induction l1 as [|p r IH]; intros seen; [done|].
  cbn [app seen_after].
  destruct (truthy_str (key_of p) && negb (bool_decide (key_of p ∈ seen)));
    by rewrite IH.
Qed.

Lemma filter_ext_bool {A : Type} (f g : A -> bool) (l : list A) :
  (forall x, f x = g x) -> List.filter f l = List.filter g l.
Proof. intros H. apply List.filter_ext. exact H. Qed.

Lemma filter_filter_and {A : Type} (f g : A -> bool) (l : list A) :
  List.filter f (List.filter g l) = List.filter (fun x => g x && f x) l.
Proof.
  induction l as [|a l IH]; [done|]. cbn.
  destruct (g a); cbn; [destruct (f a)|]; by rewrite IH.
Qed.

(** The loop keeps the first occurrence of every non-empty key it has
    not seen before. *)
Lemma kept_first_occurrences seen l :
  kept seen l
  = List.filter (fun q => negb (bool_decide (key_of q ∈ seen)))
      (first_occurrences (List.filter has_title l)).
Proof.
  revert seen. induction l as [|p r IH]; intros seen; [done|].
  cbn [kept List.filter]. unfold has_title at 1.
  destruct (truthy_str (key_of p)) eqn:Ht; cbn [andb].
  - cbn [first_occurrences List.filter].
    destruct (bool_decide (key_of p ∈ seen)) eqn:Hs; cbn [negb].
    + rewrite IH, filter_filter_and. apply filter_ext_bool. intros q.
      destruct (String.eqb (key_of q) (key_of p)) eqn:Hq; cbn; [|done].
      apply String.eqb_eq in Hq. by rewrite Hq, Hs.
    + f_equal. rewrite IH, filter_filter_and. apply filter_ext_bool.
      intros q.
      destruct (String.eqb (key_of q) (key_of p)) eqn:Hq; cbn.
      * apply String.eqb_eq in Hq. rewrite Hq.
        rewrite bool_decide_eq_true_2; [done|set_solver].
      * apply String.eqb_neq in Hq.
        destruct (bool_decide (key_of q ∈ seen)) eqn:Hqs.
        -- apply bool_decide_eq_true in Hqs.
           rewrite bool_decide_eq_true_2; [done|set_solver].
        -- apply bool_decide_eq_false in Hqs.
           rewrite bool_decide_eq_false_2; [done|].
           by intros [?%elem_of_singleton|?]%elem_of_union.
  - apply IH.
Qed.

Section Adapters.

Variable fetch_openreview : ConferenceConfig -> list paper.
Variable fetch_official_site : ConferenceConfig -> list paper.
Variable search_arxiv :
  string -> Z -> list string -> list string -> Z -> Z -> list paper.



End Adapters.



End CollectorProofs.

(** ** Collaborator: the JSON retry *)

Module LlmProofs.
Import Py Llm Spec.

Lemma chat_and_load_loads llm p force_object c :
  chat_and_load llm p force_object c
  = (match loads (llm (requests c) p force_object) with
     | Some v => Ok v
     | None =>
         match llm (requests c) p force_object with
         | Error e => Error e
         | Ok _ => Error ValueError
         end
     end,
     {| requests := S (requests c); tools := tools c |}).
Proof.
  unfold chat_and_load, loads.
  destruct (llm (requests c) p force_object) as [r|e]; [|done].
  by destruct (reply_json r).
Qed.

(** C9. A JSON-mode call whose first answer fails to parse is retried
    exactly once: the call makes two requests and returns what the second
    answer parses to, and [None] when the second fails to parse as well;
    it does not raise. *)
Theorem chat_json_retries_once_then_gives_none
    (llm : collaborator) (p : prompt) (force_object : bool) (c : client) :
  loads (llm (requests c) p force_object) = None ->
  _chat_json llm p force_object c
  = (Ok (default JNull (loads (llm (S (requests c)) p force_object))),
     {| requests := S (S (requests c)); tools := tools c |})
  /\ (loads (llm (S (requests c)) p force_object) = None ->
      _chat_json llm p force_object c
      = (Ok JNull, {| requests := S (S (requests c)); tools := tools c |})).
Proof.
  intros H1.
  assert (_chat_json llm p force_object c
          = (Ok (default JNull (loads (llm (S (requests c)) p force_object))),
             {| requests := S (S (requests c)); tools := tools c |})) as Heq.
  { unfold _chat_json. cbn [chat_json_attempts].
    rewrite !chat_and_load_loads. rewrite H1. cbn [requests tools].
    destruct (llm (requests c) p force_object);
      destruct (loads (llm (S (requests c)) p force_object)) eqn:H2;
      try reflexivity;
      destruct (llm (S (requests c)) p force_object); reflexivity. }
  split; [exact Heq|]. intros H2. by rewrite Heq, H2.
Qed.

Lemma chat_json_retries_once_then_gives_none_witness :
  loads (babbling_llm (requests new_client) (SummarizePrompt []) false) = None
  /\ (_chat_json babbling_llm (SummarizePrompt []) false new_client
      = (Ok (default JNull
               (loads (babbling_llm (S (requests new_client))
                         (SummarizePrompt []) false))),
         {| requests := S (S (requests new_client)); tools := tools new_client |})
      /\ (loads (babbling_llm (S (requests new_client))
                   (SummarizePrompt []) false) = None ->
          _chat_json babbling_llm (SummarizePrompt []) false new_client
          = (Ok JNull,
             {| requests := S (S (requests new_client));
                tools := tools new_client |}))).
Proof.
  split; [reflexivity|].
  apply (chat_json_retries_once_then_gives_none babbling_llm
           (SummarizePrompt []) false new_client).
  reflexivity.
Defined.

(** An answer that parses is returned at once: one request. *)
Lemma chat_json_first_answer llm p force_object c v :
  loads (llm (requests c) p force_object) = Some v ->
  _chat_json llm p force_object c
  = (Ok v, {| requests := S (requests c); tools := tools c |}).
Proof.
  intros H. unfold _chat_json. cbn [chat_json_attempts].
  by rewrite chat_and_load_loads, H.
Qed.

(** [_chat_json] never raises. *)
Lemma chat_json_total llm p force_object c :
  exists v c', _chat_json llm p force_object c = (Ok v, c').
Proof.
  unfold _chat_json. cbn [chat_json_attempts].
  destruct (chat_and_load llm p force_object c) as [[v|e] c1]; [eauto|].
  destruct (chat_and_load llm p force_object c1) as [[v|e'] c2]; eauto.
Qed.

End LlmProofs.

(** ** Enrichment loop: batch summarization *)

Module WorkflowProofs.
Import Py Db Llm Workflow Spec.

Lemma summary_of_well_formed item id :
  well_formed_item item id ->
  exists en zh, summary_of_item item = Some (id, JStr en, JStr zh).
Proof.
  intros (fields & en & zh & -> & Hid & Hen & Hzh).
  exists en, zh. unfold summary_of_item. cbn. by rewrite Hid, Hen, Hzh.
Qed.

Lemma summaries_of_well_formed items ids :
  Forall2 well_formed_item items ids ->
  exists rows,
    omap summary_of_item items = rows
    /\ map (fun r : Z * pyval * pyval => r.1.1) rows = ids
    /\ Forall storable rows.
Proof.
  induction 1 as [|item id items ids Hitem _ (rows & Hrows & Hids & Hst)].
  - exists []. by repeat split.
  - destruct (summary_of_well_formed _ _ Hitem) as (en & zh & Hs).
    exists ((id, JStr en, JStr zh) :: rows). cbn. rewrite Hs, Hrows. cbn.
    repeat split; [by rewrite Hids|]. constructor; [by split|done].
Qed.

Lemma batch_summarize_well_formed llm batch c :
  batch <> [] ->
  well_formed_reply batch (llm (requests c) (SummarizePrompt batch) false) ->
  exists rows,
    batch_summarize llm batch c
    = (Ok rows, {| requests := S (requests c); tools := tools c |})
    /\ Forall storable rows
    /\ length rows = length batch
    /\ forall id, id ∈ map row_id batch ->
                  id ∈ map (fun r : Z * pyval * pyval => r.1.1) rows.
Proof.
  intros Hne (r & items & ids & Hr & Hjson & Hitems & Hlen & Hcov).
  destruct (summaries_of_well_formed _ _ Hitems) as (rows & Hrows & Hids & Hst).
  exists rows. unfold batch_summarize.
  destruct batch as [|b batch]; [done|].
  rewrite (LlmProofs.chat_json_first_answer _ _ _ _ (JArr items));
    [|by rewrite Hr].
  assert (items <> []) as Hne'.
  { intros ->. apply Forall2_nil_inv_l in Hitems. subst ids. done. }
  cbn [truthy negb iter]. destruct items as [|i items]; [done|].
  cbn [negb]. rewrite Hrows. split; [done|]. split; [done|].
  split; [|by rewrite Hids].
  rewrite <- Hlen, <- Hids. by rewrite length_map.
Qed.

Lemma has_summary_replace p en zh db pid :
  has_summary (replace_summary p en zh db) pid = true
  <-> pid = p \/ has_summary db pid = true.
Proof.
  unfold has_summary, replace_summary. cbn [summaries set_summaries].
  rewrite existsb_app, orb_true_iff. cbn [existsb summary_paper_id].
  rewrite orb_false_r, Z.eqb_eq, !existsb_exists.
  split.
  - intros [(s & [Hs Hf]%filter_In & Hid) | ->]; [right|left]; eauto.
  - intros [-> | (s & Hs & Hid)]; [by right|].
    destruct (decide (p = pid)) as [->|Hne]; [by right|].
    left. exists s. split; [|done]. apply filter_In. split; [done|].
    apply Z.eqb_eq in Hid. rewrite Hid.
    by apply negb_true_iff, Z.eqb_neq.
Qed.

Lemma save_summaries_loop_ok rows db :
  Forall storable rows ->
  exists db',
    save_summaries_loop rows db = Ok db'
    /\ papers db' = papers db
    /\ forall pid,
         has_summary db' pid = true
         <-> has_summary db pid = true
             \/ pid ∈ map (fun r : Z * pyval * pyval => r.1.1) rows.
Proof.
  intros Hst. revert db.
  induction Hst as [|[[p en] zh] rows [Hen Hzh] _ IH]; intros db.
  - exists db. repeat split; [tauto|]. intros [?|Hin]; [done|].
    by apply elem_of_nil in Hin.
  - cbn in Hen, Hzh. cbn [save_summaries_loop]. rewrite Hen, Hzh. cbn [andb].
    destruct (IH (replace_summary p en zh db)) as (db' & -> & Hp & Hs).
    exists db'. split; [done|]. split; [by rewrite Hp|].
    intros pid. rewrite Hs, has_summary_replace. cbn [map].
    rewrite elem_of_cons. cbn. tauto.
Qed.

Lemma candidate_after db db' conference year (ids : list Z) p :
  (forall pid, has_summary db' pid = true
               <-> has_summary db pid = true \/ pid ∈ ids) ->
  summary_candidate db' conference year p
  = match summary_candidate db conference year p with
    | Some row => if bool_decide (row_id row ∈ ids) then None else Some row
    | None => None
    end.
Proof.
  intros Hs. unfold summary_candidate.
  destruct (String.eqb (paper_conference p) conference && (paper_year p =? year));
    cbn [andb]; [|done].
  destruct (has_summary db (paper_id p)) eqn:Hold.
  - assert (has_summary db' (paper_id p) = true) as -> by (apply Hs; auto).
    done.
  - cbn [negb].
    destruct (decide (paper_id p ∈ ids)) as [Hin|Hout].
    + assert (has_summary db' (paper_id p) = true) as -> by (apply Hs; auto).
      cbn [negb]. destruct (paper_abstract p); [|done].
      unfold row_id. cbn. by rewrite bool_decide_eq_true_2.
    + assert (has_summary db' (paper_id p) = false) as ->.
      { apply not_true_is_false. intros [?|?]%Hs; [congruence|done]. }
      cbn [negb]. destruct (paper_abstract p); [|done].
      unfold row_id. cbn. by rewrite bool_decide_eq_false_2.
Qed.

(** Once the ids [ids] have a summary, they leave the backlog. *)
Lemma backlog_after db db' conference year (ids : list Z) :
  papers db' = papers db ->
  (forall pid, has_summary db' pid = true
               <-> has_summary db pid = true \/ pid ∈ ids) ->
  backlog db' conference year
  = List.filter (fun row => negb (bool_decide (row_id row ∈ ids)))
      (backlog db conference year).
Proof.
  intros Hp Hs. unfold backlog. rewrite Hp. clear Hp.
  induction (papers db) as [|p rows IH]; [done|].
  cbn [omap list_omap].
  rewrite (candidate_after db db' conference year ids p Hs).
  destruct (summary_candidate db conference year p) as [row|]; [|done].
  cbn [List.filter].
  destruct (bool_decide (row_id row ∈ ids)); cbn [negb]; by rewrite IH.
Qed.

Lemma backlog_ids_sublist db conference year :
  map row_id (backlog db conference year) `sublist_of` map paper_id (papers db).
Proof.
  unfold backlog. induction (papers db) as [|p rows IH]; [done|].
  cbn [omap list_omap map]. unfold summary_candidate at 1.
  destruct (_ && _); [|by apply sublist_cons].
  destruct (paper_abstract p); [|by apply sublist_cons].
  cbn. by apply sublist_skip.
Qed.

(** Removing the keys of the first [n] elements of a list without
    duplicate keys leaves the list without its first [n] elements. *)
Lemma filter_out_take {A : Type} (f : A -> Z) (test : A -> bool)
    (n : nat) (l : list A) :
  NoDup (map f l) ->
  (forall x, x ∈ l -> test x = true <-> f x ∈ map f (take n l)) ->
  List.filter (fun x => negb (test x)) l = drop n l.
Proof.
  revert n. induction l as [|a l IH]; intros n Hnd Htest.
  - by destruct n.
  - destruct n as [|n].
    + cbn [drop]. rewrite <- (List.filter_true (a :: l)) at 2.
      apply List.filter_ext_in. intros x Hx%list_elem_of_In.
      apply negb_true_iff, not_true_is_false. intros Ht%Htest; [|done].
      cbn in Ht. by apply elem_of_nil in Ht.
    + cbn [drop List.filter].
      assert (test a = true) as ->.
      { apply Htest; [by left|]. cbn. by left. }
      cbn [negb]. apply NoDup_cons in Hnd as [Hna Hnd].
      apply IH; [done|]. intros x Hx. rewrite Htest by (by right).
      cbn [take map]. rewrite elem_of_cons. split; [|auto].
      intros [Heq|?]; [|done]. destruct Hna. rewrite <- Heq.
      by apply list_elem_of_fmap_2.
Qed.

Lemma ceil_div_zero n : 0 < n -> ceil_div 0 n = 0.
Proof. intros Hn. unfold ceil_div. apply Z.div_small. lia. Qed.

Lemma ceil_div_step b n :
  0 < n -> 0 < b -> ceil_div b n = 1 + ceil_div (Z.max 0 (b - n)) n.
Proof.
  intros Hn Hb. unfold ceil_div.
  destruct (Z.le_gt_cases b n) as [Hle|Hgt].
  - rewrite Z.max_l by lia.
    rewrite (Z.div_small (0 + n - 1) n) by lia.
    symmetry. apply (Z.div_unique _ _ _ (b - 1)); lia.
  - rewrite Z.max_r by lia.
    replace (b + n - 1) with ((b - n + n - 1) + 1 * n) by lia.
    rewrite Z.div_add by lia. lia.
Qed.

Lemma ceil_div_nonneg b n : 0 < n -> 0 <= b -> 0 <= ceil_div b n.
Proof. intros. unfold ceil_div. apply Z.div_pos; lia. Qed.

Section Loop.

Variable llm : collaborator.
Variable name : string.
Variable year : Z.
Variable N : Z.
Hypothesis batch_size_positive : 0 < N.
Hypothesis replies_well_formed : well_behaved llm.

Lemma one_iteration db c :
  NoDup (map paper_id (papers db)) ->
  backlog db name year <> [] ->
  exists rows db1,
    batch_summarize llm (sql_limit N (backlog db name year)) c
    = (Ok rows, {| requests := S (requests c); tools := tools c |})
    /\ save_summaries rows db = (Ok (), db1)
    /\ papers db1 = papers db
    /\ backlog db1 name year = drop (Z.to_nat N) (backlog db name year)
    /\ forall pid,
         has_summary db1 pid = true
         <-> has_summary db pid = true
             \/ pid ∈ map row_id (take (Z.to_nat N) (backlog db name year)).
Proof.
  intros Hnd Hne. unfold sql_limit.
  destruct (N <? 0) eqn:Hneg; [apply Z.ltb_lt in Hneg; lia|].
  set (n := Z.to_nat N). set (l := backlog db name year) in *.
  assert (take n l <> []) as Hbatch.
  { destruct l; [done|]. destruct n eqn:Hn; [lia|done]. }
  assert (NoDup (map row_id l)) as Hndl.
  { eapply sublist_NoDup; [exact Hnd|apply backlog_ids_sublist]. }
  destruct (batch_summarize_well_formed llm (take n l) c Hbatch
              (replies_well_formed _ _ Hbatch))
    as (rows & Hsum & Hst & Hlen & Hcov).
  destruct (save_summaries_loop_ok rows db Hst) as (db1 & Hsave & Hp & Hs).
  exists rows, db1. split; [done|].
  split; [unfold save_summaries; by rewrite Hsave|]. split; [done|].
  assert (forall pid, pid ∈ map (fun r : Z * pyval * pyval => r.1.1) rows
                      <-> pid ∈ map row_id (take n l)) as Hmem.
  { assert (map row_id (take n l)
            ≡ₚ map (fun r : Z * pyval * pyval => r.1.1) rows) as Hperm.
    { apply submseteq_length_Permutation.
      - apply NoDup_submseteq; [|done].
        rewrite <- (take_drop n l), map_app in Hndl.
        by apply NoDup_app in Hndl as [? _].
      - rewrite !length_map. lia. }
    intros pid. by rewrite Hperm. }
  split.
  - rewrite (backlog_after db db1 name year _ Hp Hs). fold l.
    apply (filter_out_take row_id
             (fun row => bool_decide (row_id row ∈ map (fun r : Z * pyval * pyval => r.1.1) rows)));
      [done|].
    intros x _. by rewrite bool_decide_eq_true, Hmem.
  - intros pid. by rewrite Hs, Hmem.
Qed.

(** The loop on a backlog of [b] papers: [ceil(b / N)] requests, after
    which the backlog is empty and exactly the backlog has been
    summarized. *)
Lemma summarize_while_spec b :
  forall db c,
    length (backlog db name year) = b ->
    NoDup (map paper_id (papers db)) ->
    exists db',
      (forall fuel,
         (Z.to_nat (ceil_div (Z.of_nat b) N) <= fuel)%nat ->
         summarize_while llm fuel name year N
           (sql_limit N (backlog db name year))
           {| st_db := db; st_llm := c |}
         = Some (Ok (),
                 {| st_db := db';
                    st_llm :=
                      {| requests :=
                           requests c + Z.to_nat (ceil_div (Z.of_nat b) N);
                         tools := tools c |} |}))
      /\ papers db' = papers db
      /\ backlog db' name year = []
      /\ forall pid,
           has_summary db' pid = true
           <-> has_summary db pid = true
               \/ pid ∈ map row_id (backlog db name year).
Proof.
  induction b as [b IH] using lt_wf_ind. intros db c Hlen Hnd.
  destruct (backlog db name year) as [|row rest] eqn:Hbl.
  - cbn in Hlen. subst b. exists db.
    rewrite ceil_div_zero by done. cbn [Z.to_nat].
    assert (sql_limit N (@nil (Z * string * string)) = []) as ->.
    { unfold sql_limit. destruct (N <? 0); [done|]. by rewrite take_nil. }
    split.
    + intros fuel _. destruct fuel; cbn; rewrite Nat.add_0_r; by destruct c.
    + split; [done|]. split; [done|]. intros pid. cbn.
      split; [auto|]. intros [?|Hin]; [done|]. by apply elem_of_nil in Hin.
  - rewrite <- Hbl in *.
    assert (backlog db name year <> []) as Hne by (by rewrite Hbl).
    destruct (one_iteration db c Hnd Hne)
      as (rows & db1 & Hsum & Hsave & Hp1 & Hbl1 & Hs1).
    set (n := Z.to_nat N) in *.
    assert (0 < b)%nat as Hb by (rewrite <- Hlen, Hbl; cbn; lia).
    assert (length (backlog db1 name year) = (b - n)%nat) as Hlen1.
    { by rewrite Hbl1, length_drop, Hlen. }
    assert (Z.to_nat (ceil_div (Z.of_nat b) N)
            = S (Z.to_nat (ceil_div (Z.of_nat (b - n)) N))) as Hcalls.
    { rewrite (ceil_div_step (Z.of_nat b) N) by lia.
      rewrite Nat2Z.inj_sub_max. subst n. rewrite Z2Nat.id by lia.
      rewrite Z2Nat.inj_add; [done|lia|].
      apply ceil_div_nonneg; lia. }
    destruct (IH (b - n)%nat ltac:(subst n; lia) db1
                {| requests := S (requests c); tools := tools c |}
                Hlen1 ltac:(by rewrite Hp1))
      as (db' & Hrun & Hp' & Hbl' & Hs').
    exists db'. split; [|split; [congruence|split; [done|]]].
    + intros fuel Hfuel. rewrite Hcalls in Hfuel.
      destruct fuel as [|fuel]; [lia|].
      destruct (sql_limit N (backlog db name year)) as [|r0 batch] eqn:Hb0.
      { exfalso. unfold sql_limit in Hb0.
        destruct (N <? 0); [done|]. rewrite Hbl in Hb0.
        fold n in Hb0. destruct n eqn:Hn; [lia|done]. }
      cbn [summarize_while st_llm st_db]. rewrite Hsum, Hsave.
      unfold fetch_papers_without_summary. fold (backlog db1 name year).
      rewrite Hrun by lia. cbn [requests tools]. rewrite Hcalls.
      do 4 f_equal. lia.
    + intros pid. rewrite Hs', Hs1, Hbl1.
      rewrite <- (take_drop n (backlog db name year)) at 3.
      rewrite map_app, elem_of_app. tauto.
Qed.

End Loop.





Lemma diligent_well_behaved : well_behaved diligent_llm.
Proof.
  intros k batch _. unfold well_formed_reply, diligent_llm.
  eexists _, (map item_of batch), (map row_id batch).
  split; [reflexivity|]. split; [reflexivity|].
  split; [|split; [by rewrite length_map|done]].
  induction batch as [|row batch IH]; constructor; [|done].
  exists [("id", JNum (row_id row)); ("tldr_en", JStr row.1.2);
          ("tldr_zh", JStr row.1.2)], row.1.2, row.1.2.
  by repeat split.
Qed.

(** C4, amended. For a batch size [N >= 1] and a collaborator whose
    every answer is a well-formed array of the length of the batch that
    covers the submitted ids, the summarization loop terminates after
    exactly [ceil(backlog / N)] requests, where the backlog is the number
    of papers of the conference that have an abstract and no summary;
    afterwards each of them has a summary and the backlog is empty. *)
Theorem summarization_loop_calls
    (llm : collaborator) (name : string) (year : Z) (N : Z)
    (db : database) (c : client) :
  0 < N ->
  well_behaved llm ->
  NoDup (map paper_id (papers db)) ->
  let calls :=
    Z.to_nat (ceil_div (Z.of_nat (length (backlog db name year))) N) in
  exists db',
    (forall fuel,
       (calls <= fuel)%nat ->
       summarize_backlog llm fuel name year N {| st_db := db; st_llm := c |}
       = Some (Ok (),
               {| st_db := db';
                  st_llm := {| requests := requests c + calls;
                               tools := tools c |} |}))
    /\ backlog db' name year = []
    /\ forall row, row ∈ backlog db name year ->
                   has_summary db' (row_id row) = true.
Proof.
  intros HN Hwf Hnd calls.
  destruct (summarize_while_spec llm name year N HN Hwf _ db c eq_refl Hnd)
    as (db' & Hrun & _ & Hbl & Hs).
  exists db'. split; [exact Hrun|]. split; [exact Hbl|].
  intros row Hrow. apply Hs. right. by apply list_elem_of_fmap_2.
Qed.

Lemma summarization_loop_calls_witness :
  0 < 10
  /\ well_behaved diligent_llm
  /\ NoDup (map paper_id (papers backlog_25))
  /\ exists db',
       (forall fuel,
          (Z.to_nat (ceil_div (Z.of_nat (length (backlog backlog_25 "icml" 2024))) 10)
           <= fuel)%nat ->
          summarize_backlog diligent_llm fuel "icml" 2024 10
            {| st_db := backlog_25; st_llm := new_client |}
          = Some (Ok (),
                  {| st_db := db';
                     st_llm :=
                       {| requests :=
                            requests new_client
                            + Z.to_nat (ceil_div (Z.of_nat (length (backlog backlog_25 "icml" 2024))) 10);
                          tools := tools new_client |} |}))
       /\ backlog db' "icml" 2024 = []
       /\ forall row, row ∈ backlog backlog_25 "icml" 2024 ->
                      has_summary db' (row_id row) = true.
Proof.
  assert (NoDup (map paper_id (papers backlog_25))) as Hnd
    by (apply (bool_decide_unpack _); vm_compute; exact I).
  split; [lia|]. split; [exact diligent_well_behaved|]. split; [exact Hnd|].
  apply (summarization_loop_calls diligent_llm "icml" 2024 10 backlog_25
           new_client); [lia|exact diligent_well_behaved|exact Hnd].
Defined.

(** A backlog of 25 papers and a batch size of 10: 3 requests, 25
    summaries. *)
Example backlog_25_takes_3_calls :
  match summarize_backlog diligent_llm 3 "icml" 2024 10
          {| st_db := backlog_25; st_llm := new_client |} with
  | Some (Ok _, st') =>
      requests (st_llm st') = 3%nat
      /\ length (summaries (st_db st')) = 25%nat
      /\ unsummarized (st_db st') "icml" 2024 = []
  | _ => False
  end.
Proof. vm_compute. repeat split. Qed.

(** C4, as stated, fails when papers without an abstract lack a
    summary: 25 papers have no summary, [ceil(25 / 10) = 3], and the loop
    stops after 2 requests with 5 papers still without a summary. *)
Lemma papers_without_abstract_are_not_counted :
  length (unsummarized backlog_20_of_25 "icml" 2024) = 25%nat
  /\ ceil_div 25 10 = 3
  /\ match summarize_backlog diligent_llm 5 "icml" 2024 10
             {| st_db := backlog_20_of_25; st_llm := new_client |} with
     | Some (Ok _, st') =>
         requests (st_llm st') = 2%nat
         /\ length (unsummarized (st_db st') "icml" 2024) = 5%nat
     | _ => False
     end.
Proof. vm_compute. repeat split. Qed.




End WorkflowProofs.

(** ** Code verification engine *)

Module VerifierProofs.
Import Py Datetime Llm CodeVerifier Spec.




(** The judgment only ever lowers a status. *)
Lemma llm_step_lowers llm readme_text status0 c status1 c' :
  llm_step llm readme_text status0 c = (Ok status1, c') ->
  status1 = "Placeholder" \/ status1 = status0.
Proof.
  unfold llm_step. destruct llm as [oracle|]; [|intros [= <- _]; by right].
  destruct (truthy_str readme_text); [|intros [= <- _]; by right].
  destruct (placeholder_judgment oracle readme_text c) as [[[]|e] c1];
    intros [= <- _]; auto.
Qed.

Lemma llm_step_affirmative oracle readme_text status0 c c' :
  truthy_str readme_text = true ->
  placeholder_judgment oracle readme_text c = (Ok true, c') ->
  llm_step (Some oracle) readme_text status0 c = (Ok "Placeholder", c').
Proof. intros Ht Hj. unfold llm_step. by rewrite Ht, Hj. Qed.

Section Network.

Variable requests_get : http.
Variable b64decode : string -> option string.


(** The verdict of steps 1 to 6 on a repository that was reached. *)
Lemma verify_repo_checks_reached url token paper_date f :
  reached requests_get url token f ->
  verify_repo_checks requests_get url token paper_date
  = Ok ({| status :=
             if recency_downgrade paper_date (rf_last_commit f)
             then "Placeholder"
             else if rf_code_found f && rf_size_positive f
                  then "Verified" else "Placeholder";
           has_readme := rf_size_positive f;
           has_code := rf_code_found f;
           last_commit := rf_last_commit f |},
        Some (rf_owner f, rf_repo f)).
Proof.
  intros (Hparts & Hmeta & Htruthy & (size & Hsize & Hgt) & Hpushed
          & Hcommit & Hcode).
  unfold verify_repo_checks.
  rewrite Hmeta, Htruthy, Hparts, Hsize, Hgt, Hcommit, Hpushed, Hcode.
  reflexivity.
Qed.

Lemma verify_repo_reached url token llm paper_date c f :
  reached requests_get url token f ->
  verify_repo requests_get b64decode url token llm paper_date c
  = let status0 :=
      if recency_downgrade paper_date (rf_last_commit f)
      then "Placeholder"
      else if rf_code_found f && rf_size_positive f
           then "Verified" else "Placeholder" in
    match llm_step llm
            (readme_or_empty requests_get b64decode (rf_owner f)
               (rf_repo f) token) status0 c with
    | (Error e, c') => (Error e, c')
    | (Ok status', c') =>
        (Ok {| status := status'; has_readme := rf_size_positive f;
               has_code := rf_code_found f;
               last_commit := rf_last_commit f |}, c')
    end.
Proof.
  intros Hr. unfold verify_repo.
  by rewrite (verify_repo_checks_reached url token paper_date f Hr).
Qed.

(** [has_code] is the test of the allow-list on the names of the root
    listing. *)
Lemma any_code_file_names items names :
  Forall2 entry_named items names ->
  any_code_file items
  = Ok (existsb (fun n => has_allowed_ext (lower n)) names).
Proof.
  induction 1 as [|item n items names (fields & -> & Hn) _ IH]; [done|].
  cbn [any_code_file existsb get]. rewrite Hn. cbn [default id].
  destruct (has_allowed_ext (lower n)); [done|]. by rewrite IH.
Qed.

Lemma check_code_files_listing owner repo token resp items names :
  requests_get
    (GITHUB_API +:+ "/repos/" +:+ owner +:+ "/" +:+ repo +:+ "/contents")
    (_get_headers token) = Ok resp ->
  status_code resp = 200 ->
  json resp = Some (JArr items) ->
  Forall2 entry_named items names ->
  _check_code_files requests_get owner repo token
  = Ok (existsb (fun n => has_allowed_ext (lower n)) names).
Proof.
  intros Hresp Hcode Hjson Hnames. unfold _check_code_files, resp_json.
  rewrite Hresp, Hcode, Hjson. cbn. by apply any_code_file_names.
Qed.


(** C8. The judgment of the collaborator never upgrades a status: a
    verdict returned with the collaborator has the status "Placeholder"
    or the status [verify_repo] returns without it; an affirmative
    judgment gives "Placeholder"; a status other than "Verified" is
    never turned into "Verified". *)
Theorem llm_judgment_never_upgrades
    (url : string) (token : option string) (llm : option collaborator)
    (paper_date : option string) (c : client) (v : verdict) (c' : client) :
  verify_repo requests_get b64decode url token llm paper_date c
  = (Ok v, c') ->
  exists v0,
    verify_repo requests_get b64decode url token None paper_date c
    = (Ok v0, c)
    /\ (status v = "Placeholder" \/ status v = status v0)
    /\ (status v0 <> "Verified" -> status v <> "Verified")
    /\ forall oracle owner repo c1,
         llm = Some oracle ->
         verify_repo_checks requests_get url token paper_date
         = Ok (v0, Some (owner, repo)) ->
         truthy_str (readme_or_empty requests_get b64decode owner repo token)
         = true ->
         placeholder_judgment oracle
           (readme_or_empty requests_get b64decode owner repo token) c
         = (Ok true, c1) ->
         status v = "Placeholder".
Proof.
  unfold verify_repo.
  destruct (verify_repo_checks requests_get url token paper_date)
    as [[v0 [[owner repo]|]]|e]; [| |discriminate].
  - destruct (llm_step llm _ (status v0) c) as [[st|e] c1] eqn:Hstep;
      [|discriminate].
    intros [= <- <-]. exists v0. cbn [status].
    pose proof (llm_step_lowers _ _ _ _ _ _ Hstep) as Hlow.
    split; [by destruct v0|]. split; [exact Hlow|]. split.
    + intros Hne. destruct Hlow as [-> | ->]; [discriminate|done].
    + intros oracle owner' repo' c2 -> [= <- <-] Ht Hj.
      rewrite (llm_step_affirmative _ _ _ _ _ Ht Hj) in Hstep.
      by injection Hstep as <- _.
  - intros [= <- <-]. exists v0. split; [done|]. split; [by right|].
    split; [done|]. intros oracle owner repo c1 _ [=].
Qed.

End Network.





Lemma llm_judgment_never_upgrades_witness :
  verify_repo sample_github sample_b64decode sample_url None
    (Some strict_reviewer) (Some "2024-01-15T00:00:00+00:00") new_client
  = (Ok {| status := "Placeholder"; has_readme := true; has_code := true;
           last_commit := JStr "2024-02-01T10:00:00Z" |},
     {| requests := 3; tools := ["check_placeholder"] |})
  /\ exists v0,
       verify_repo sample_github sample_b64decode sample_url None None
         (Some "2024-01-15T00:00:00+00:00") new_client = (Ok v0, new_client)
       /\ ("Placeholder" = "Placeholder" \/ "Placeholder" = status v0)
       /\ (status v0 <> "Verified" -> "Placeholder" <> "Verified")
       /\ forall oracle owner repo c1,
            Some strict_reviewer = Some oracle ->
            verify_repo_checks sample_github sample_url None
              (Some "2024-01-15T00:00:00+00:00")
            = Ok (v0, Some (owner, repo)) ->
            truthy_str (readme_or_empty sample_github sample_b64decode
                          owner repo None) = true ->
            placeholder_judgment oracle
              (readme_or_empty sample_github sample_b64decode owner repo None)
              new_client = (Ok true, c1) ->
            "Placeholder" = "Placeholder".
Proof.
  assert (verify_repo sample_github sample_b64decode sample_url None
            (Some strict_reviewer) (Some "2024-01-15T00:00:00+00:00")
            new_client
          = (Ok {| status := "Placeholder"; has_readme := true;
                   has_code := true;
                   last_commit := JStr "2024-02-01T10:00:00Z" |},
             {| requests := 3; tools := ["check_placeholder"] |})) as Hrun
    by (vm_compute; reflexivity).
  split; [exact Hrun|].
  exact (llm_judgment_never_upgrades sample_github sample_b64decode
           sample_url None (Some strict_reviewer)
           (Some "2024-01-15T00:00:00+00:00") new_client _ _ Hrun).
Defined.

(** A last commit 382 days after the paper date forces "Placeholder". *)
Example stale_repo_is_placeholder :
  (verify_repo sample_github sample_b64decode sample_url None None
     (Some "2023-01-15T00:00:00+00:00") new_client).1
  = Ok {| status := "Placeholder"; has_readme := true; has_code := true;
          last_commit := JStr "2024-02-01T10:00:00Z" |}.
Proof. vm_compute. reflexivity. Qed.

(** The paper date the pipeline passes is the [created_at] column, a
    timestamp without offset, and GitHub dates end in [Z]: the
    subtraction raises [TypeError], the [except] passes over it and the
    recency check does not fire, here at 382 days. *)
Example naive_paper_date_skips_recency_check :
  recency_downgrade (Some "2023-01-15 00:00:00")
    (JStr "2024-02-01T10:00:00Z") = false
  /\ (verify_repo sample_github sample_b64decode sample_url None None
        (Some "2023-01-15 00:00:00") new_client).1
     = Ok {| status := "Verified"; has_readme := true; has_code := true;
             last_commit := JStr "2024-02-01T10:00:00Z" |}.
Proof. vm_compute. split; reflexivity. Qed.

(** [timedelta.days] is a floor: 180 days and 23 hours after the paper
    date count as 180, one second more than 180 days before it as 181. *)
Example whole_days_are_floored :
  recency_downgrade (Some "2024-01-01T00:00:00+00:00")
    (JStr "2024-06-29T23:00:00+00:00") = false
  /\ recency_downgrade (Some "2024-06-29T00:00:01+00:00")
       (JStr "2024-01-01T00:00:00+00:00") = true.
Proof. vm_compute. split; reflexivity. Qed.

(** A repository that is not found: status "None". *)
Example unknown_repo_is_none :
  verify_repo sample_github sample_b64decode "https://github.com/acme/other"
    None (Some strict_reviewer) (Some "2024-01-15T00:00:00+00:00") new_client
  = (Ok none_verdict, new_client).
Proof. vm_compute. reflexivity. Qed.

End VerifierProofs.

(** ** Trigger engine: errors, monotonicity, what a run keeps *)

Module TriggerExtras.
Import Py Datetime Config Db CcfMonitor Spec TriggerSpec TriggerProofs.

Lemma decide_conf_fail deadlines lag today conf :
  due_date_representable deadlines lag conf = false ->
  decide_conf deadlines lag today conf = Fail OverflowError.
Proof.
  unfold due_date_representable, decide_conf, date_add_days.
  destruct (deadlines !! upper (name conf)) as [s|]; [|discriminate].
  destruct (parse_deadline s) as [dt|]; [|discriminate].
  by intros ->.
Qed.

Lemma decide_conf_ok deadlines lag today conf :
  due_date_representable deadlines lag conf = true ->
  decide_conf deadlines lag today conf
  = if activates_b deadlines lag today conf then Fire else Skip.
Proof.
  unfold due_date_representable, decide_conf, activates_b, date_add_days.
  destruct (deadlines !! upper (name conf)) as [s|]; [|done].
  destruct (parse_deadline s) as [dt|]; [|done].
  by intros ->.
Qed.

Section Run.

Variable utcnow : nat -> datetime.

Lemma select_loop_outcome today deadlines lag confs acc w :
  (select_loop utcnow today deadlines lag confs acc w).1
  = if due_dates_representable deadlines lag confs
    then Ok (acc ++ List.filter (activates_b deadlines lag today) confs)
    else Error OverflowError.
Proof.
  revert acc w. induction confs as [|conf rest IH]; intros acc w.
  - cbn. by rewrite app_nil_r.
  - rewrite select_loop_cons. cbn zeta.
    unfold due_dates_representable in *. cbn [forallb List.filter].
    destruct (due_date_representable deadlines lag conf) eqn:Hc; cbn [andb].
    + rewrite (decide_conf_ok _ _ today _ Hc).
      destruct (activates_b deadlines lag today conf).
      * rewrite IH. destruct (forallb _ rest); [|done].
        by rewrite <- app_assoc.
      * apply IH.
    + by rewrite (decide_conf_fail _ _ today _ Hc).
Qed.

(** X1. The run raises [OverflowError] exactly when the deadline of some
    configured conference parses and its date plus [lag_days] is not a
    date; otherwise it returns the conferences that pass the activation
    test, in the order of the configuration and as often as configured. *)
Theorem select_triggered_outcome
    (confs : list ConferenceConfig) (deadlines : gmap string string)
    (lag_days : Z) (w : world) :
  (select_triggered_conferences utcnow confs deadlines lag_days w).1
  = if due_dates_representable deadlines lag_days confs
    then Ok (List.filter
               (activates_b deadlines lag_days (date_of (utcnow (w_tick w))))
               confs)
    else Error OverflowError.
Proof.
  unfold select_triggered_conferences, read_clock.
  by rewrite select_loop_outcome.
Qed.

End Run.

Lemma activates_b_later deadlines lag today today' conf :
  today <= today' ->
  activates_b deadlines lag today conf = true ->
  activates_b deadlines lag today' conf = true.
Proof.
  unfold activates_b. intros Hle.
  destruct (deadlines !! upper (name conf)) as [s|]; [|done].
  destruct (parse_deadline s) as [dt|]; [|done].
  rewrite !Z.leb_le. lia.
Qed.

(** X2. Activation is monotone in the date: with the same feed and lag, a
    conference selected by a run is selected by every run on the same or a
    later day. *)
Theorem selected_again_on_later_days
    (utcnow utcnow' : nat -> datetime) (confs : list ConferenceConfig)
    (deadlines : gmap string string) (lag_days : Z) (w w' : world)
    (earlier later : list ConferenceConfig) :
  (select_triggered_conferences utcnow confs deadlines lag_days w).1
  = Ok earlier ->
  (select_triggered_conferences utcnow' confs deadlines lag_days w').1
  = Ok later ->
  date_of (utcnow (w_tick w)) <= date_of (utcnow' (w_tick w')) ->
  forall conf, conf ∈ earlier -> conf ∈ later.
Proof.
  unfold select_triggered_conferences, read_clock.
  rewrite !select_loop_outcome.
  destruct (due_dates_representable deadlines lag_days confs); [|discriminate].
  intros [= <-] [= <-] Hle conf.
  rewrite !list_elem_of_In, !filter_In. intros [Hin Hact]. split; [done|].
  by eapply activates_b_later.
Qed.

Lemma selected_again_on_later_days_witness :
  (select_triggered_conferences (clock_on (ymd2ord 2024 1 22)) [icml; nofeed]
     sample_deadlines 7 fresh_world).1 = Ok [icml]
  /\ (select_triggered_conferences (clock_on (ymd2ord 2024 3 1)) [icml; nofeed]
        sample_deadlines 7 fresh_world).1 = Ok [icml]
  /\ date_of (clock_on (ymd2ord 2024 1 22) (w_tick fresh_world))
     <= date_of (clock_on (ymd2ord 2024 3 1) (w_tick fresh_world))
  /\ forall conf, conf ∈ [icml] -> conf ∈ [icml].
Proof.
  assert ((select_triggered_conferences (clock_on (ymd2ord 2024 1 22))
             [icml; nofeed] sample_deadlines 7 fresh_world).1 = Ok [icml])
    as H1 by (vm_compute; reflexivity).
  assert ((select_triggered_conferences (clock_on (ymd2ord 2024 3 1))
             [icml; nofeed] sample_deadlines 7 fresh_world).1 = Ok [icml])
    as H2 by (vm_compute; reflexivity).
  assert (date_of (clock_on (ymd2ord 2024 1 22) (w_tick fresh_world))
          <= date_of (clock_on (ymd2ord 2024 3 1) (w_tick fresh_world)))
    as H3 by (vm_compute; discriminate).
  split; [exact H1|]. split; [exact H2|]. split; [exact H3|].
  exact (selected_again_on_later_days _ _ _ _ _ _ _ _ _ H1 H2 H3).
Defined.

(** *** Rows are only appended and stamped *)

Lemma same_but_stamp_refl r : same_but_stamp r r.
Proof. by repeat split. Qed.

Lemma same_but_stamp_trans r1 r2 r3 :
  same_but_stamp r1 r2 -> same_but_stamp r2 r3 -> same_but_stamp r1 r3.
Proof.
  unfold same_but_stamp. intros (?&?&?&?) (?&?&?&?).
  repeat split; congruence.
Qed.

Lemma grown_from_refl rows : grown_from rows rows.
Proof.
  exists rows, []. rewrite app_nil_r. split; [done|].
  induction rows; constructor; [apply same_but_stamp_refl|done].
Qed.

Lemma grown_from_trans rows1 rows2 rows3 :
  grown_from rows1 rows2 -> grown_from rows2 rows3 -> grown_from rows1 rows3.
Proof.
  intros (k1 & a1 & -> & H1) (k2 & a2 & -> & H2).
  apply Forall2_app_inv_l in H2 as (k21 & k22 & H21 & H22 & ->).
  exists k21, (k22 ++ a2). rewrite app_assoc. split; [done|].
  clear H22. revert k21 H21.
  induction H1 as [|r1 r2 rows1 k1 Hr _ IH]; intros k21 H21.
  - apply Forall2_nil_inv_l in H21 as ->. constructor.
  - apply Forall2_cons_inv_l in H21 as (r3 & k3 & Hr' & Hk & ->).
    constructor; [by eapply same_but_stamp_trans|by apply IH].
Qed.

Lemma grown_from_upsert n y d db :
  grown_from (conferences db) (conferences (upsert_conference n y d db)).
Proof.
  unfold upsert_conference. destruct (existsb _ _); [apply grown_from_refl|].
  cbn [conferences set_conferences]. eexists _, _. split; [reflexivity|].
  induction (conferences db); constructor; [apply same_but_stamp_refl|done].
Qed.

Lemma grown_from_mark t n y db :
  grown_from (conferences db)
    (conferences (mark_conference_triggered t n y db)).
Proof.
  unfold mark_conference_triggered. cbn [conferences set_conferences].
  eexists _, []. rewrite app_nil_r. split; [reflexivity|].
  induction (conferences db) as [|r rows IH]; constructor; [|done].
  destruct (conf_key_is n y r); [by repeat split|apply same_but_stamp_refl].
Qed.

Lemma conf_keys_mark t n y db :
  conf_keys (mark_conference_triggered t n y db) = conf_keys db.
Proof.
  unfold conf_keys, mark_conference_triggered.
  cbn [conferences set_conferences]. rewrite map_map.
  apply map_ext. intros r. by destruct (conf_key_is n y r).
Qed.

Lemma existsb_key_false n y db :
  existsb (conf_key_is n y) (conferences db) = false ->
  (n, y) ∉ conf_keys db.
Proof.
  intros Hex (r & Hk & Hr)%list_elem_of_fmap. injection Hk as -> ->.
  assert (existsb (conf_key_is (conf_name r) (conf_year r)) (conferences db)
          = true); [|congruence].
  apply existsb_exists. exists r. split; [by apply list_elem_of_In|].
  unfold conf_key_is. by rewrite String.eqb_refl, Z.eqb_refl.
Qed.

Lemma existsb_key_true n y db :
  existsb (conf_key_is n y) (conferences db) = true ->
  (n, y) ∈ conf_keys db.
Proof.
  intros (r & Hr & Hk)%existsb_exists. apply list_elem_of_fmap.
  exists r. split; [|by apply list_elem_of_In].
  unfold conf_key_is in Hk. apply andb_prop in Hk as [H1 H2].
  apply String.eqb_eq in H1. apply Z.eqb_eq in H2. by subst.
Qed.

Lemma conf_keys_upsert n y d db :
  conf_keys (upsert_conference n y d db)
  = if existsb (conf_key_is n y) (conferences db) then conf_keys db
    else conf_keys db ++ [(n, y)].
Proof.
  unfold upsert_conference. destruct (existsb _ _); [done|].
  unfold conf_keys. cbn [conferences set_conferences]. by rewrite map_app.
Qed.

Lemma NoDup_keys_upsert n y d db :
  NoDup (conf_keys db) -> NoDup (conf_keys (upsert_conference n y d db)).
Proof.
  intros Hnd. rewrite conf_keys_upsert.
  destruct (existsb _ _) eqn:Hex; [done|].
  apply NoDup_app. split; [done|]. split; [|apply NoDup_singleton].
  intros k Hk ->%list_elem_of_singleton.
  by apply (existsb_key_false n y db Hex).
Qed.

Lemma key_present_upsert n y d db :
  (n, y) ∈ conf_keys (upsert_conference n y d db).
Proof.
  rewrite conf_keys_upsert. destruct (existsb _ _) eqn:Hex.
  - by apply existsb_key_true.
  - apply elem_of_app. right. by apply list_elem_of_singleton.
Qed.

Lemma key_kept_upsert k n y d db :
  k ∈ conf_keys db -> k ∈ conf_keys (upsert_conference n y d db).
Proof.
  rewrite conf_keys_upsert. destruct (existsb _ _); [done|].
  intros H. apply elem_of_app. by left.
Qed.

Section Keeps.

Variable utcnow : nat -> datetime.

(** What the loop keeps, whatever its outcome. *)
Lemma select_loop_keeps today deadlines lag confs acc w r w' :
  select_loop utcnow today deadlines lag confs acc w = (r, w') ->
  grown_from (conferences (w_db w)) (conferences (w_db w'))
  /\ (NoDup (conf_keys (w_db w)) -> NoDup (conf_keys (w_db w')))
  /\ (forall k, k ∈ conf_keys (w_db w) -> k ∈ conf_keys (w_db w')).
Proof.
  revert acc w. induction confs as [|conf rest IH]; intros acc w.
  - cbn. intros [= <- <-]. split; [apply grown_from_refl|]. by split.
  - rewrite select_loop_cons. cbn zeta.
    pose proof (grown_from_upsert (name conf) (year conf)
                  (deadlines !! upper (name conf)) (w_db w)) as Hg.
    pose proof (NoDup_keys_upsert (name conf) (year conf)
                  (deadlines !! upper (name conf)) (w_db w)) as Hn.
    pose proof (fun k => key_kept_upsert k (name conf) (year conf)
                  (deadlines !! upper (name conf)) (w_db w)) as Hk.
    destruct (decide_conf deadlines lag today conf).
    + intros (Hg' & Hn' & Hk')%IH. cbn [do_upsert w_db] in *.
      split; [by eapply grown_from_trans|]. split; [auto|]. auto.
    + intros (Hg' & Hn' & Hk')%IH.
      cbn [do_mark do_upsert read_clock w_db w_tick] in *.
      rewrite conf_keys_mark in Hn', Hk'.
      split; [|split; [auto|auto]].
      eapply grown_from_trans; [exact Hg|].
      eapply grown_from_trans; [apply grown_from_mark|exact Hg'].
    + intros [= <- <-]. cbn [do_upsert w_db]. by split; [|split].
Qed.

(** X3. Whatever its outcome, a run only appends rows to [conferences] and
    stamps [triggered_at]: every row it found is still there, in place,
    with its id, name, year and deadline; and it keeps the (name, year)
    keys unique. *)
Theorem run_only_appends_and_stamps
    (confs : list ConferenceConfig) (deadlines : gmap string string)
    (lag_days : Z) (w : world) :
  let w' := (select_triggered_conferences utcnow confs deadlines lag_days w).2 in
  grown_from (conferences (w_db w)) (conferences (w_db w'))
  /\ (NoDup (conf_keys (w_db w)) -> NoDup (conf_keys (w_db w'))).
Proof.
  cbn zeta. unfold select_triggered_conferences, read_clock.
  destruct (select_loop utcnow _ deadlines lag_days confs [] _) as [r w'] eqn:Hrun.
  apply select_loop_keeps in Hrun as (Hg & Hn & _). cbn [w_db] in *.
  by split.
Qed.

(** The deadline column of a key: set by the first insertion, kept
    afterwards. *)
Lemma stored_deadlines_mark t n' y' db n y :
  stored_deadlines (mark_conference_triggered t n' y' db) n y
  = stored_deadlines db n y.
Proof.
  unfold stored_deadlines, mark_conference_triggered.
  cbn [conferences set_conferences].
  induction (conferences db) as [|r rows IH]; [done|].
  cbn [map List.filter].
  assert (conf_key_is n y (if conf_key_is n' y' r then stamp t r else r)
          = conf_key_is n y r) as -> by (by destruct (conf_key_is n' y' r)).
  destruct (conf_key_is n y r); cbn [map]; rewrite IH; [|done].
  by destruct (conf_key_is n' y' r).
Qed.

Lemma stored_deadlines_upsert n' y' d db n y :
  stored_deadlines (upsert_conference n' y' d db) n y
  = if existsb (conf_key_is n' y') (conferences db) then stored_deadlines db n y
    else if String.eqb n' n && (y' =? y)
         then stored_deadlines db n y ++ [d]
         else stored_deadlines db n y.
Proof.
  unfold upsert_conference. destruct (existsb _ _); [done|].
  unfold stored_deadlines. cbn [conferences set_conferences].
  rewrite List.filter_app, map_app. cbn [List.filter].
  change (conf_key_is n y _) with (String.eqb n' n && (y' =? y)).
  destruct (String.eqb n' n && (y' =? y)); [done|]. by rewrite app_nil_r.
Qed.

Lemma select_loop_deadlines today deadlines lag confs acc w l w' n y :
  select_loop utcnow today deadlines lag confs acc w = (Ok l, w') ->
  stored_deadlines (w_db w) n y = []
  \/ stored_deadlines (w_db w) n y = [deadlines !! upper n] ->
  (configured confs n y ->
   stored_deadlines (w_db w') n y = [deadlines !! upper n])
  /\ (stored_deadlines (w_db w) n y = [deadlines !! upper n] ->
      stored_deadlines (w_db w') n y = [deadlines !! upper n])
  /\ (stored_deadlines (w_db w') n y = []
      \/ stored_deadlines (w_db w') n y = [deadlines !! upper n]).
Proof.
  revert acc w. induction confs as [|conf rest IH]; intros acc w.
  - cbn. intros [= <- <-] Hinit. split; [|by split].
    intros (conf & Hin & _). by apply elem_of_nil in Hin.
  - rewrite select_loop_cons. cbn zeta. intros Hrun Hinit.
    set (d := deadlines !! upper (name conf)) in *.
    set (w1 := do_upsert (name conf) (year conf) d w) in *.
    assert (stored_deadlines (w_db w1) n y
            = if decide (name conf = n /\ year conf = y)
              then [deadlines !! upper n]
              else stored_deadlines (w_db w) n y) as Hw1.
    { subst w1. cbn [do_upsert w_db]. rewrite stored_deadlines_upsert.
      destruct (decide (name conf = n /\ year conf = y)) as [[Hn Hy]|Hne].
      - subst d. rewrite Hn, Hy, String.eqb_refl, Z.eqb_refl. cbn [andb].
        destruct (existsb _ _) eqn:Hex.
        + destruct Hinit as [Hnil|Hone]; [|done].
          apply existsb_exists in Hex as (r & Hr & Hk).
          unfold stored_deadlines in Hnil. apply map_eq_nil in Hnil.
          assert (In r (List.filter (conf_key_is n y) (conferences (w_db w))))
            as Hin by (by apply filter_In).
          rewrite Hnil in Hin. destruct Hin.
        + unfold stored_deadlines. by rewrite (filter_existsb_false _ _ Hex).
      - destruct (existsb _ _); [done|].
        destruct (String.eqb (name conf) n) eqn:H1,
                 (year conf =? y) eqn:H2; cbn [andb]; try done.
        apply String.eqb_eq in H1. apply Z.eqb_eq in H2. by destruct Hne. }
    assert (stored_deadlines (w_db w1) n y = []
            \/ stored_deadlines (w_db w1) n y = [deadlines !! upper n]) as Hinit1.
    { rewrite Hw1. destruct (decide _); [by right|done]. }
    assert (forall w2 acc2,
              stored_deadlines (w_db w2) n y = stored_deadlines (w_db w1) n y ->
              select_loop utcnow today deadlines lag rest acc2 w2
              = (Ok l, w') ->
              (configured (conf :: rest) n y ->
               stored_deadlines (w_db w') n y = [deadlines !! upper n])
              /\ (stored_deadlines (w_db w) n y = [deadlines !! upper n] ->
                  stored_deadlines (w_db w') n y = [deadlines !! upper n])
              /\ (stored_deadlines (w_db w') n y = []
                  \/ stored_deadlines (w_db w') n y = [deadlines !! upper n]))
      as Hrest.
    { intros w2 acc2 Heq Hrun2. rewrite <- Heq in Hinit1, Hw1.
      destruct (IH _ _ Hrun2 Hinit1) as (Hconf & Hkeep & Hfinal).
      split; [|split; [|done]].
      - intros (c & [->|Hin]%elem_of_cons & Hn & Hy).
        + apply Hkeep. rewrite Hw1. by rewrite decide_True.
        + apply Hconf. by exists c.
      - intros Hone. apply Hkeep. rewrite Hw1.
        by destruct (decide _). }
    destruct (decide_conf deadlines lag today conf); [| |discriminate].
    + by apply (Hrest w1 acc eq_refl).
    + apply (Hrest (do_mark utcnow (name conf) (year conf) w1) (acc ++ [conf]));
        [|done].
      cbn [do_mark read_clock w_db]. apply stored_deadlines_mark.
Qed.

(** X4. A conference that has no row yet is registered with the deadline
    of the feed: after a run that returns, the (name, year) of every
    configured conference that was absent has one row, whose deadline is
    the feed's entry for the uppercased name (NULL when there is none). *)
Theorem new_conference_gets_feed_deadline
    (confs : list ConferenceConfig) (deadlines : gmap string string)
    (lag_days : Z) (w : world) (triggered : list ConferenceConfig)
    (w' : world) (conf : ConferenceConfig) :
  select_triggered_conferences utcnow confs deadlines lag_days w
  = (Ok triggered, w') ->
  conf ∈ confs ->
  stored_deadlines (w_db w) (name conf) (year conf) = [] ->
  stored_deadlines (w_db w') (name conf) (year conf)
  = [deadlines !! upper (name conf)].
Proof.
  unfold select_triggered_conferences, read_clock. intros Hrun Hin Hnew.
  eapply select_loop_deadlines in Hrun as (Hconf & _).
  - apply Hconf. by exists conf.
  - cbn [w_db]. by left.
Qed.

End Keeps.

Lemma new_conference_gets_feed_deadline_witness :
  exists triggered w',
    select_triggered_conferences (clock_on (ymd2ord 2024 1 22)) [icml; nofeed]
      sample_deadlines 7 fresh_world = (Ok triggered, w')
    /\ icml ∈ [icml; nofeed]
    /\ stored_deadlines (w_db fresh_world) (name icml) (year icml) = []
    /\ stored_deadlines (w_db w') (name icml) (year icml)
       = [sample_deadlines !! upper (name icml)].
Proof.
  assert (icml ∈ [icml; nofeed]) as Hin by constructor.
  destruct (select_triggered_conferences (clock_on (ymd2ord 2024 1 22))
              [icml; nofeed] sample_deadlines 7 fresh_world)
    as [[triggered|e] w'] eqn:Hrun; [|by vm_compute in Hrun].
  exists triggered, w'. split; [reflexivity|]. split; [exact Hin|].
  split; [reflexivity|].
  exact (new_conference_gets_feed_deadline _ _ _ _ _ _ _ icml Hrun Hin eq_refl).
Defined.

End TriggerExtras.

(** ** Collector: when it raises, what it returns *)

Module CollectorExtras.
Import Py Config Collector Spec CollectorSpec CollectorProofs.

Lemma title_is_str_b_spec p : title_is_str_b p = true <-> title_is_str p.
Proof.
  unfold title_is_str_b, title_is_str.
  destruct (p !! "title") as [[]|]; cbn; split; done.
Qed.

Lemma title_key_not_str p :
  title_is_str_b p = false -> title_key p = Error AttributeError.
Proof.
  unfold title_is_str_b, title_key.
  destruct (p !! "title") as [[]|]; cbn; done.
Qed.

Lemma Forall_title_forallb l :
  forallb title_is_str_b l = true <-> Forall title_is_str l.
Proof.
  rewrite forallb_forall, Forall_forall.
  split; intros H p Hp.
  - apply title_is_str_b_spec, H. by apply list_elem_of_In.
  - apply title_is_str_b_spec, H. by apply list_elem_of_In.
Qed.

Lemma dedup_outcome l seen collected :
  dedup l seen collected
  = if forallb title_is_str_b l
    then Ok (seen_after seen l, collected ++ kept seen l)
    else Error AttributeError.
Proof.
  destruct (forallb title_is_str_b l) eqn:Hall.
  - apply dedup_kept. by apply Forall_title_forallb.
  - revert seen collected. induction l as [|p r IH]; intros seen collected;
      [discriminate|].
    cbn [forallb] in Hall. cbn [dedup].
    destruct (title_is_str_b p) eqn:Hp.
    + rewrite (title_key_str p) by (by apply title_is_str_b_spec).
      cbn [andb] in Hall. destruct (_ && _); by apply IH.
    + by rewrite (title_key_not_str p Hp).
Qed.

Section Adapters.

Variable fetch_openreview : ConferenceConfig -> list paper.
Variable fetch_official_site : ConferenceConfig -> list paper.
Variable search_arxiv :
  string -> Z -> list string -> list string -> Z -> Z -> list paper.

Lemma collect_loop_outcome conf monitoring categories keywords priority
    seen collected :
  collect_loop fetch_openreview fetch_official_site search_arxiv
    conf monitoring categories keywords priority seen collected
  = if forallb title_is_str_b
         (harvest fetch_openreview fetch_official_site search_arxiv
            conf monitoring categories keywords priority)
    then Ok (collected
             ++ kept seen
                  (harvest fetch_openreview fetch_official_site search_arxiv
                     conf monitoring categories keywords priority))
    else Error AttributeError.
Proof.
  revert seen collected.
  induction priority as [|source rest IH]; intros seen collected.
  - cbn. by rewrite app_nil_r.
  - cbn [collect_loop harvest].
    destruct (fetch_source _ _ _ _ _ _ _ source) as [papers|]; [|apply IH].
    rewrite forallb_app, dedup_outcome.
    destruct (forallb title_is_str_b (map _ papers)); [|done].
    cbn [andb]. rewrite IH. destruct (forallb _ _); [|done].
    by rewrite kept_app, app_assoc.
Qed.


End Adapters.

(** *** What the deduplication guarantees *)

Lemma filter_sublist {A : Type} (f : A -> bool) (l : list A) :
  List.filter f l `sublist_of` l.
Proof.
  induction l as [|a l IH]; [done|]. cbn.
  destruct (f a); [by apply sublist_skip|by apply sublist_cons].
Qed.

Lemma first_occurrences_sublist l : first_occurrences l `sublist_of` l.
Proof.
  induction l as [|p r IH]; [done|]. cbn [first_occurrences].
  apply sublist_skip. etrans; [apply filter_sublist|done].
Qed.



Section Guarantees.

Variable fetch_openreview : ConferenceConfig -> list paper.
Variable fetch_official_site : ConferenceConfig -> list paper.
Variable search_arxiv :
  string -> Z -> list string -> list string -> Z -> Z -> list paper.

Lemma collect_papers_returns conf monitoring categories keywords collected :
  collect_papers fetch_openreview fetch_official_site search_arxiv
    conf monitoring categories keywords = Ok collected ->
  collected
  = first_occurrences
      (List.filter has_title
         (harvest fetch_openreview fetch_official_site search_arxiv
            conf monitoring categories keywords (priority_of conf))).
Proof.
  unfold collect_papers. fold (priority_of conf).
  rewrite collect_loop_outcome.
  destruct (forallb _ _); [|discriminate]. intros [= <-].
  cbn [app]. rewrite kept_first_occurrences.
  rewrite <- (List.filter_true (first_occurrences _)) at 2.
  apply filter_ext_bool. intros q.
  rewrite bool_decide_eq_false_2; [done|set_solver].
Qed.


Lemma normalize_tags p conference year source :
  _normalize p conference year source !! "conference" = Some (JStr conference)
  /\ _normalize p conference year source !! "year" = Some (JNum year)
  /\ _normalize p conference year source !! "source" = Some (JStr source)
  /\ _normalize p conference year source !! "title" = p !! "title".
Proof.
  unfold _normalize, setdefault.
  destruct (p !! "affiliations") eqn:Ha;
    destruct (_ !! "supplemental_url") eqn:Hs;
    repeat split; simplify_map_eq; done.
Qed.

Lemma fetch_source_recognized conf monitoring categories keywords source papers :
  fetch_source fetch_openreview fetch_official_site search_arxiv
    conf monitoring categories keywords source = Some papers ->
  recognized_source source.
Proof.
  unfold fetch_source, recognized_source.
  destruct (String.eqb source "openreview") eqn:H1;
    [apply String.eqb_eq in H1; auto|].
  destruct (String.eqb source "official") eqn:H2;
    [apply String.eqb_eq in H2; auto|].
  destruct (String.eqb source "arxiv") eqn:H3;
    [apply String.eqb_eq in H3; auto|done].
Qed.

Lemma harvest_tagged conf monitoring categories keywords priority p :
  p ∈ harvest fetch_openreview fetch_official_site search_arxiv
        conf monitoring categories keywords priority ->
  p !! "conference" = Some (JStr (name conf))
  /\ p !! "year" = Some (JNum (year conf))
  /\ exists source,
       source ∈ priority /\ recognized_source source
       /\ p !! "source" = Some (JStr source).
Proof.
  induction priority as [|source rest IH]; cbn [harvest];
    [by intros ?%elem_of_nil|].
  intros [Hp|Hp]%elem_of_app.
  - destruct (fetch_source _ _ _ _ _ _ _ source) as [papers|] eqn:Hf;
      [|by apply elem_of_nil in Hp].
    apply list_elem_of_fmap in Hp as (p0 & -> & _).
    destruct (normalize_tags p0 (name conf) (year conf) source)
      as (Hc & Hy & Hs & _).
    split; [done|]. split; [done|]. exists source.
    split; [by left|]. split; [by eapply fetch_source_recognized|done].
  - destruct (IH Hp) as (Hc & Hy & s & Hs & Hr & Hl).
    split; [done|]. split; [done|]. exists s. split; [by right|]. by split.
Qed.

(** X7. Every collected record is tagged with the name and year of the
    configured conference and with the source it came from, which is one of
    the source names of the priority list that has an adapter; what the
    adapter itself put under these keys is overwritten. *)
Theorem collected_records_are_tagged
    (conf : ConferenceConfig) (monitoring : MonitoringConfig)
    (categories keywords : list string) (collected : list paper) (p : paper) :
  collect_papers fetch_openreview fetch_official_site search_arxiv
    conf monitoring categories keywords = Ok collected ->
  p ∈ collected ->
  p !! "conference" = Some (JStr (name conf))
  /\ p !! "year" = Some (JNum (year conf))
  /\ exists source,
       source ∈ priority_of conf /\ recognized_source source
       /\ p !! "source" = Some (JStr source).
Proof.
  intros ->%collect_papers_returns Hp. eapply harvest_tagged.
  eapply elem_of_sublist; [|apply filter_sublist].
  eapply elem_of_sublist; [exact Hp|apply first_occurrences_sublist].
Qed.

End Guarantees.


Lemma collected_records_are_tagged_witness :
  exists collected p,
    collect_papers openreview_result official_result arxiv_result
      icml monitoring [] [] = Ok collected
    /\ p ∈ collected
    /\ p !! "conference" = Some (JStr (name icml))
    /\ p !! "year" = Some (JNum (year icml))
    /\ exists source,
         source ∈ priority_of icml /\ recognized_source source
         /\ p !! "source" = Some (JStr source).
Proof.
  destruct (collect_papers openreview_result official_result arxiv_result
              icml monitoring [] []) as [[|p collected]|e] eqn:H;
    [by vm_compute in H| |by vm_compute in H].
  exists (p :: collected), p. split; [reflexivity|].
  assert (p ∈ p :: collected) as Hin by constructor.
  split; [exact Hin|].
  exact (collected_records_are_tagged openreview_result official_result
           arxiv_result icml monitoring [] [] (p :: collected) p H Hin).
Defined.

End CollectorExtras.

(** ** Summarization loop: divergence, partial answers, storage *)

Module WorkflowExtras.
Import Py Db Llm Workflow Spec WorkflowSpec LlmProofs WorkflowProofs.

Lemma chat_json_unusable llm p force_object c :
  unusable llm ->
  exists v c',
    _chat_json llm p force_object c = (Ok v, c')
    /\ truthy v = false /\ tools c' = tools c.
Proof.
  intros Hun. unfold _chat_json. cbn [chat_json_attempts].
  rewrite !chat_and_load_loads. cbn [requests tools].
  pose proof (Hun (requests c) p force_object) as H1.
  pose proof (Hun (S (requests c)) p force_object) as H2.
  destruct (loads (llm (requests c) p force_object)) as [v|]; [eauto|].
  destruct (llm (requests c) p force_object);
    (destruct (loads (llm (S (requests c)) p force_object)) as [v|];
     [eauto|
      destruct (llm (S (requests c)) p force_object); eexists JNull, _; eauto]).
Qed.

Lemma batch_summarize_unusable llm batch c :
  unusable llm ->
  exists c', batch_summarize llm batch c = (Ok [], c').
Proof.
  intros Hun. unfold batch_summarize. destruct batch as [|b batch]; [eauto|].
  destruct (chat_json_unusable llm (SummarizePrompt (b :: batch)) false c Hun)
    as (v & c' & -> & -> & _).
  cbn. eauto.
Qed.

Lemma sql_limit_nonempty {A : Type} (N : Z) (l : list A) :
  N <> 0 -> l <> [] -> sql_limit N l <> [].
Proof.
  intros HN Hl. unfold sql_limit. destruct (N <? 0) eqn:Hneg; [done|].
  apply Z.ltb_ge in Hneg. destruct l; [done|].
  destruct (Z.to_nat N) eqn:Hn; [lia|done].
Qed.

(** X8. The loop has no exit on failure: when no answer of the
    collaborator can be used (each fails to parse, or parses to an empty or
    falsy value) and some paper awaits a summary, the loop fetches the same
    batch again and again; it is still running after any number of
    iterations. *)
Theorem summarization_never_ends_without_usable_answers
    (llm : collaborator) (name : string) (year : Z) (N : Z)
    (st : state) (fuel : nat) :
  unusable llm ->
  N <> 0 ->
  backlog (st_db st) name year <> [] ->
  summarize_backlog llm fuel name year N st = None.
Proof.
  intros Hun HN Hbl. unfold summarize_backlog.
  unfold fetch_papers_without_summary. fold (backlog (st_db st) name year).
  pose proof (sql_limit_nonempty N _ HN Hbl) as Hbatch.
  destruct st as [db c]. cbn [st_db] in *. revert c.
  induction fuel as [|fuel IH]; intros c.
  - cbn. by destruct (sql_limit N (backlog db name year)).
  - cbn [summarize_while].
    destruct (sql_limit N (backlog db name year)) as [|b batch] eqn:Hb; [done|].
    cbn [st_llm st_db].
    destruct (batch_summarize_unusable llm (b :: batch) c Hun) as (c' & ->).
    cbn [save_summaries save_summaries_loop].
    unfold fetch_papers_without_summary. fold (backlog db name year).
    rewrite Hb. apply IH.
Qed.

Lemma idle_unusable : unusable idle_llm.
Proof. intros k p fo. reflexivity. Qed.

Lemma summarization_never_ends_without_usable_answers_witness :
  unusable idle_llm
  /\ 10 <> 0
  /\ backlog (st_db {| st_db := backlog_25; st_llm := new_client |})
       "icml" 2024 <> []
  /\ summarize_backlog idle_llm 1000 "icml" 2024 10
       {| st_db := backlog_25; st_llm := new_client |} = None.
Proof.
  assert (backlog (st_db {| st_db := backlog_25; st_llm := new_client |})
            "icml" 2024 <> []) as Hbl by (vm_compute; discriminate).
  split; [exact idle_unusable|]. split; [lia|]. split; [exact Hbl|].
  apply (summarization_never_ends_without_usable_answers idle_llm "icml" 2024
           10 _ 1000%nat idle_unusable); [lia|exact Hbl].
Defined.

(** *** [save_summaries] *)

Lemma save_summaries_loop_storable rows db db' :
  save_summaries_loop rows db = Ok db' -> Forall storable rows.
Proof.
  revert db. induction rows as [|[[p en] zh] rows IH]; intros db; [done|].
  cbn [save_summaries_loop].
  destruct (bindable en && bindable zh) eqn:Hb; [|discriminate].
  apply andb_prop in Hb as [Hen Hzh]. intros H%IH. by constructor.
Qed.


(** X9. What [save_summaries] stores decides the next fetch: when it
    returns, the papers table is as before and, for every conference and
    year, the papers awaiting a summary are those that awaited one before
    minus those whose ids the saved tuples name, in the same order.  An
    answer that omits ids leaves exactly the omitted papers for the next
    iteration. *)
Theorem saved_ids_leave_the_backlog
    (rows : list (Z * pyval * pyval)) (db db' : database)
    (conference : string) (year : Z) :
  save_summaries rows db = (Ok (), db') ->
  papers db' = papers db
  /\ backlog db' conference year
     = List.filter (fun row => negb (bool_decide (row_id row ∈ named_ids rows)))
         (backlog db conference year).
Proof.
  unfold save_summaries.
  destruct (save_summaries_loop rows db) as [db1|e] eqn:Hsave; [|discriminate].
  intros [= <-].
  pose proof (save_summaries_loop_storable _ _ _ Hsave) as Hst.
  destruct (save_summaries_loop_ok rows db Hst) as (db2 & Hsave2 & Hp & Hs).
  rewrite Hsave in Hsave2. injection Hsave2 as <-.
  split; [done|]. by apply backlog_after.
Qed.

Lemma saved_ids_leave_the_backlog_witness :
  exists db',
    save_summaries [(2, JStr "en", JStr "zh")] one_null_abstract = (Ok (), db')
    /\ papers db' = papers one_null_abstract
    /\ backlog db' "icml" 2024
       = List.filter
           (fun row => negb (bool_decide
                               (row_id row ∈ named_ids [(2, JStr "en", JStr "zh")])))
           (backlog one_null_abstract "icml" 2024).
Proof.
  destruct (save_summaries [(2, JStr "en", JStr "zh")] one_null_abstract)
    as [[[]|e] db'] eqn:H; [|by vm_compute in H].
  exists db'. split; [reflexivity|].
  exact (saved_ids_leave_the_backlog _ _ _ "icml" 2024 H).
Defined.


Lemma filter_pid_replace p en zh db pid :
  List.filter (fun s => summary_paper_id s =? pid)
    (summaries (replace_summary p en zh db))
  = if p =? pid
    then [{| summary_id := summaries_seq db + 1; summary_paper_id := p;
             summary_tldr_en := en; summary_tldr_zh := zh |}]
    else List.filter (fun s => summary_paper_id s =? pid) (summaries db).
Proof.
  unfold replace_summary. cbn [summaries set_summaries].
  rewrite List.filter_app. cbn [List.filter summary_paper_id].
  destruct (p =? pid) eqn:Hp.
  - apply Z.eqb_eq in Hp as ->.
    rewrite ClusterProofs.filter_all_false; [done|]. auto.
  - rewrite app_nil_r. apply ClusterProofs.filter_filter_neg.
    intros s Hs. apply Z.eqb_eq in Hs. rewrite Hs, Z.eqb_sym. exact Hp.
Qed.

Lemma stored_texts_save_other rows db db' pid :
  save_summaries_loop rows db = Ok db' ->
  pid ∉ named_ids rows ->
  stored_texts db' pid = stored_texts db pid.
Proof.
  revert db. induction rows as [|[[p en] zh] rows IH]; intros db.
  - by intros [= <-].
  - cbn [save_summaries_loop named_ids map].
    destruct (bindable en && bindable zh); [|discriminate].
    intros Hsave Hout. apply not_elem_of_cons in Hout as [Hne Hout].
    rewrite (IH _ Hsave Hout). unfold stored_texts.
    rewrite filter_pid_replace. cbn in Hne.
    by assert ((p =? pid) = false) as -> by (apply Z.eqb_neq; congruence).
Qed.

(** X11. After [save_summaries] returns, each paper the tuples name has
    exactly one summary, with the texts of the last tuple that names it:
    an earlier summary of the paper and earlier tuples of the same call are
    replaced. *)
Theorem last_tuple_wins
    (before after : list (Z * pyval * pyval)) (pid : Z) (en zh : pyval)
    (db db' : database) :
  save_summaries (before ++ (pid, en, zh) :: after) db = (Ok (), db') ->
  pid ∉ named_ids after ->
  stored_texts db' pid = [(en, zh)].
Proof.
  unfold save_summaries.
  destruct (save_summaries_loop _ db) as [db1|e] eqn:Hsave; [|discriminate].
  intros [= <-] Hout. revert db Hsave.
  induction before as [|[[p e1] z1] before IH]; intros db.
  - cbn [app save_summaries_loop].
    destruct (bindable en && bindable zh); [|discriminate].
    intros Hsave. rewrite (stored_texts_save_other _ _ _ _ Hsave Hout).
    unfold stored_texts. rewrite filter_pid_replace, Z.eqb_refl. done.
  - cbn [app save_summaries_loop].
    destruct (bindable e1 && bindable z1); [|discriminate]. apply IH.
Qed.

Lemma last_tuple_wins_witness :
  exists db',
    save_summaries ([(2, JStr "draft", JNull)] ++ (2, JStr "en", JStr "zh") :: [])
      one_null_abstract = (Ok (), db')
    /\ (2 ∉ named_ids [])
    /\ stored_texts db' 2 = [(JStr "en", JStr "zh")].
Proof.
  destruct (save_summaries
              ([(2, JStr "draft", JNull)] ++ (2, JStr "en", JStr "zh") :: [])
              one_null_abstract) as [[[]|e] db'] eqn:H; [|by vm_compute in H].
  assert (2 ∉ named_ids []) as Hout by (cbn; apply not_elem_of_nil).
  exists db'. split; [reflexivity|]. split; [exact Hout|].
  exact (last_tuple_wins _ _ _ _ _ _ _ H Hout).
Defined.

(** *** Batch sizes that are not positive *)

Lemma filter_none {A : Type} (f : A -> bool) (l : list A) :
  (forall x, x ∈ l -> f x = false) -> List.filter f l = [].
Proof.
  induction l as [|a l IH]; intros H; [done|]. cbn.
  rewrite (H a) by (by left). apply IH. intros x Hx. apply H. by right.
Qed.

(** X12. A batch size of 0 turns the summarization off (LIMIT 0 fetches
    nothing: no request, the store untouched); a negative batch size puts
    the whole backlog into one batch (a negative LIMIT is no limit): with
    well-formed answers one request summarizes every awaiting paper. *)
Theorem batch_size_zero_or_negative
    (llm : collaborator) (name : string) (year : Z) (N : Z)
    (db : database) (c : client) :
  (N = 0 ->
   forall fuel,
     summarize_backlog llm fuel name year N {| st_db := db; st_llm := c |}
     = Some (Ok (), {| st_db := db; st_llm := c |}))
  /\ (N < 0 -> well_behaved llm -> backlog db name year <> [] ->
      exists db',
        (forall fuel,
           (1 <= fuel)%nat ->
           summarize_backlog llm fuel name year N
             {| st_db := db; st_llm := c |}
           = Some (Ok (),
                   {| st_db := db';
                      st_llm := {| requests := S (requests c);
                                   tools := tools c |} |}))
        /\ backlog db' name year = []).
Proof.
  split.
  - intros -> fuel. unfold summarize_backlog, fetch_papers_without_summary.
    unfold sql_limit. cbn [Z.ltb Z.compare Z.to_nat take].
    by destruct fuel.
  - intros HN Hwf Hbl.
    assert (forall d, fetch_papers_without_summary d name year N
                      = backlog d name year) as Hfetch.
    { intros d. unfold fetch_papers_without_summary, sql_limit.
      by assert ((N <? 0) = true) as -> by (by apply Z.ltb_lt). }
    destruct (batch_summarize_well_formed llm (backlog db name year) c Hbl
                (Hwf _ _ Hbl)) as (rows & Hsum & Hst & Hlen & Hcov).
    destruct (save_summaries_loop_ok rows db Hst) as (db' & Hsave & Hp & Hs).
    assert (backlog db' name year = []) as Hbl'.
    { rewrite (backlog_after db db' name year _ Hp Hs).
      apply filter_none. intros row Hrow.
      rewrite bool_decide_eq_true_2; [done|].
      apply Hcov. by apply list_elem_of_fmap_2. }
    exists db'. split; [|done].
    intros fuel Hfuel. destruct fuel as [|fuel]; [lia|].
    unfold summarize_backlog. rewrite Hfetch.
    destruct (backlog db name year) as [|b batch] eqn:Hb; [done|].
    cbn [summarize_while st_llm st_db]. rewrite !Hb, Hsum.
    unfold save_summaries. rewrite Hsave. rewrite Hfetch, Hbl'.
    by destruct fuel.
Qed.

End WorkflowExtras.

(** ** Code verification: the shape of a verdict, URLs, dates *)

Module VerifierExtras.
Import Py Datetime Llm CodeVerifier Spec VerifierSpec VerifierProofs.

Section Network.

Variable requests_get : http.
Variable b64decode : string -> option string.

(** What steps 1 to 6 can return. *)
Lemma verify_repo_checks_shape url token paper_date v target :
  verify_repo_checks requests_get url token paper_date = Ok (v, target) ->
  (target = None /\ v = none_verdict)
  \/ ((exists owner repo, target = Some (owner, repo))
      /\ (status v = "Placeholder"
          \/ (status v = "Verified"
              /\ has_readme v = true /\ has_code v = true))).
Proof.
  unfold verify_repo_checks.
  destruct (fetch_repo_metadata requests_get url token) as [meta|e];
    [|discriminate].
  destruct (truthy meta); cbn [negb]; [|intros [= <- <-]; by left].
  destruct (take 2 (url_parts url)) as [|owner [|repo [|]]]; try discriminate.
  destruct (get meta "size" (JNum 0)) as [size|]; [|discriminate].
  destruct (gt_zero size) as [hr|]; [|discriminate].
  destruct (fetch_latest_commit_date _ _ _ _) as [cd|]; [|discriminate].
  destruct (get meta "pushed_at" JNull) as [pushed|]; [|discriminate].
  destruct (_check_code_files _ _ _ _) as [hc|]; [|discriminate].
  intros [= <- <-]. right. split; [eauto|]. cbn [status has_readme has_code].
  destruct (recency_downgrade _ _); [by left|].
  destruct hc, hr; cbn; auto.
Qed.

(** X13. A returned verdict is one of three: "None", "Placeholder" or
    "Verified".  "None" comes with no readme, no code, no last commit and
    without a request to the collaborator; "Verified" only with both the
    readme and the code flag set.  The collaborator can change the status
    and nothing else: the flags and the last commit are those of the
    verdict without it. *)
Theorem verdict_is_tri_state
    (url : string) (token : option string) (llm : option collaborator)
    (paper_date : option string) (c : client) (v : verdict) (c' : client) :
  verify_repo requests_get b64decode url token llm paper_date c = (Ok v, c') ->
  (status v = "None" \/ status v = "Placeholder" \/ status v = "Verified")
  /\ (status v = "None" -> v = none_verdict /\ c' = c)
  /\ (status v = "Verified" -> has_readme v = true /\ has_code v = true)
  /\ exists v0,
       verify_repo requests_get b64decode url token None paper_date c
       = (Ok v0, c)
       /\ has_readme v = has_readme v0
       /\ has_code v = has_code v0
       /\ last_commit v = last_commit v0.
Proof.
  unfold verify_repo.
  destruct (verify_repo_checks requests_get url token paper_date)
    as [[v0 target]|e] eqn:Hchecks; [|discriminate].
  apply verify_repo_checks_shape in Hchecks
    as [[-> ->] | [(owner & repo & ->) Hst]].
  - intros [= <- <-]. cbn. split; [auto|]. split; [auto|].
    split; [discriminate|]. by exists none_verdict.
  - destruct (llm_step llm _ (status v0) c) as [[st|e] c1] eqn:Hstep;
      [|discriminate].
    intros [= <- <-]. cbn [status has_readme has_code last_commit].
    apply llm_step_lowers in Hstep.
    assert (st = "Placeholder"
            \/ (st = "Verified" /\ has_readme v0 = true /\ has_code v0 = true))
      as Hst'.
    { destruct Hstep as [->| ->]; [by left|exact Hst]. }
    split; [destruct Hst' as [->|[-> _]]; auto|].
    split; [by destruct Hst' as [->|[-> _]]|].
    split; [destruct Hst' as [->|[_ ?]]; [discriminate|done]|].
    exists v0. split; [by destruct v0|done].
Qed.

Lemma last_commit_when_commits_fail owner repo token resp :
  requests_get
    (GITHUB_API +:+ "/repos/" +:+ owner +:+ "/" +:+ repo +:+ "/commits?per_page=1")
    (_get_headers token) = Ok resp ->
  status_code resp <> 200 \/ json resp = Some (JArr []) ->
  fetch_latest_commit_date requests_get owner repo token = Ok JNull.
Proof.
  intros Hresp Hfail. unfold fetch_latest_commit_date, resp_json.
  rewrite Hresp. destruct (status_code resp =? 200) eqn:Hcode; [|done].
  destruct Hfail as [Hne| ->]; [|done].
  apply Z.eqb_eq in Hcode. done.
Qed.

(** X14. [last_commit] falls back on the push date: when the commits
    request is answered with a status other than 200 or with an empty
    list, the last commit of a returned verdict is the [pushed_at] of the
    repository metadata. *)
Theorem last_commit_falls_back_on_pushed_at
    (url : string) (token : option string) (llm : option collaborator)
    (paper_date : option string) (c : client) (f : repo_facts)
    (resp : response) (v : verdict) (c' : client) :
  reached requests_get url token f ->
  requests_get
    (GITHUB_API +:+ "/repos/" +:+ rf_owner f +:+ "/" +:+ rf_repo f
     +:+ "/commits?per_page=1")
    (_get_headers token) = Ok resp ->
  status_code resp <> 200 \/ json resp = Some (JArr []) ->
  verify_repo requests_get b64decode url token llm paper_date c = (Ok v, c') ->
  last_commit v = rf_pushed_at f.
Proof.
  intros Hreached Hresp Hfail.
  rewrite (verify_repo_reached _ _ _ _ _ _ _ f Hreached). cbn zeta.
  destruct (llm_step llm _ _ c) as [[st|e] c1]; [|discriminate].
  intros [= <- <-]. cbn [last_commit]. unfold rf_last_commit.
  destruct Hreached as (_ & _ & _ & _ & _ & Hcommit & _).
  rewrite (last_commit_when_commits_fail _ _ _ _ Hresp Hfail) in Hcommit.
  by injection Hcommit as <-.
Qed.

(** X15. [has_code] looks at the root listing only and ignores case: when
    the contents request is answered with 200 and a list of entries, the
    flag is set exactly when the lowercased name of some entry ends in one
    of .py .ipynb .cc .cpp .cu .js .java; with any other status it is not
    set. *)
Theorem has_code_is_a_root_extension_test
    (owner repo : string) (token : option string) (resp : response) :
  requests_get
    (GITHUB_API +:+ "/repos/" +:+ owner +:+ "/" +:+ repo +:+ "/contents")
    (_get_headers token) = Ok resp ->
  (status_code resp <> 200 ->
   _check_code_files requests_get owner repo token = Ok false)
  /\ forall items names,
       status_code resp = 200 ->
       json resp = Some (JArr items) ->
       Forall2 entry_named items names ->
       exists b,
         _check_code_files requests_get owner repo token = Ok b
         /\ (b = true <->
             exists n, n ∈ names
                       /\ Exists (fun ext => endswith (lower n) ext = true)
                            allowed_ext).
Proof.
  intros Hresp. split.
  - intros Hcode. unfold _check_code_files. rewrite Hresp.
    by apply Z.eqb_neq in Hcode as ->.
  - intros items names Hcode Hjson Hnames.
    rewrite (check_code_files_listing requests_get owner repo token resp
               items names Hresp Hcode Hjson Hnames).
    eexists. split; [reflexivity|].
    rewrite existsb_exists. split.
    + intros (n & Hn & Hext). exists n. split; [by apply list_elem_of_In|].
      unfold has_allowed_ext in Hext.
      apply existsb_exists in Hext as (ext & Hin & He).
      apply Exists_exists. exists ext. split; [by apply list_elem_of_In|done].
    + intros (n & Hn & Hext). exists n. split; [by apply list_elem_of_In|].
      apply Exists_exists in Hext as (ext & Hin & He).
      unfold has_allowed_ext. apply existsb_exists. exists ext.
      split; [by apply list_elem_of_In|done].
Qed.

End Network.

(** *** Trailing slashes *)

Lemma rstrip_trailing (p : ascii -> bool) (s : string) (c : ascii) :
  p c = true ->
  rstrip_where p (s +:+ String c EmptyString) = rstrip_where p s.
Proof.
  intros Hc. induction s as [|a s IH]; simpl.
  - by rewrite Hc.
  - by rewrite IH.
Qed.

Lemma url_parts_trailing_slash url :
  url_parts (url +:+ "/") = url_parts url.
Proof. unfold url_parts. by rewrite rstrip_trailing. Qed.

(** X16. A trailing slash on the repository URL changes nothing: the
    verdict, the exception and the requests are those of the URL without
    it. *)
Theorem trailing_slash_is_ignored
    (requests_get : http) (b64decode : string -> option string)
    (url : string) (token : option string) (llm : option collaborator)
    (paper_date : option string) (c : client) :
  verify_repo requests_get b64decode (url +:+ "/") token llm paper_date c
  = verify_repo requests_get b64decode url token llm paper_date c.
Proof.
  unfold verify_repo, verify_repo_checks, fetch_repo_metadata.
  by rewrite url_parts_trailing_slash.
Qed.

(** *** Dates with and without offset *)

(** X17. The recency check compares only like with like: when exactly one
    of the two dates carries a UTC offset (a paper date such as
    "2023-01-15 00:00:00" against a last commit such as
    "2024-02-01T10:00:00Z"), the subtraction raises, the exception is
    passed over and the status is not lowered, however far apart the dates
    are. *)
Theorem mixed_offsets_disable_recency_check
    (pd lc : string) (paper_dt repo_dt : datetime) :
  fromisoformat (replace "Z" "+00:00" pd) = Some paper_dt ->
  fromisoformat (replace "Z" "+00:00" lc) = Some repo_dt ->
  (dt_offset paper_dt = None <-> dt_offset repo_dt <> None) ->
  recency_downgrade (Some pd) (JStr lc) = false.
Proof.
  intros Hp Hr Hmixed. unfold recency_downgrade.
  destruct (truthy_ostr (Some pd) && truthy (JStr lc)); [|done].
  rewrite Hp, Hr. unfold sub_days.
  destruct (dt_offset paper_dt) as [op|], (dt_offset repo_dt) as [orr|];
    try done.
  - exfalso. destruct Hmixed as [_ H]. by specialize (H ltac:(done)).
  - exfalso. destruct Hmixed as [H _]. by apply H.
Qed.

Lemma mixed_offsets_disable_recency_check_witness :
  fromisoformat (replace "Z" "+00:00" "2023-01-15 00:00:00")
  = Some {| dt_ord := 738535; dt_micro := 0; dt_offset := None |}
  /\ fromisoformat (replace "Z" "+00:00" "2024-02-01T10:00:00Z")
     = Some {| dt_ord := 738917; dt_micro := 36000000000; dt_offset := Some 0 |}
  /\ (dt_offset {| dt_ord := 738535; dt_micro := 0; dt_offset := None |} = None
      <-> dt_offset {| dt_ord := 738917; dt_micro := 36000000000;
                       dt_offset := Some 0 |} <> None)
  /\ recency_downgrade (Some "2023-01-15 00:00:00")
       (JStr "2024-02-01T10:00:00Z") = false.
Proof.
  assert (dt_offset {| dt_ord := 738535; dt_micro := 0; dt_offset := None |}
          = None
          <-> dt_offset {| dt_ord := 738917; dt_micro := 36000000000;
                           dt_offset := Some 0 |} <> None) as Hmixed
    by (cbn; split; done).
  split; [reflexivity|]. split; [reflexivity|]. split; [exact Hmixed|].
  exact (mixed_offsets_disable_recency_check
           "2023-01-15 00:00:00" "2024-02-01T10:00:00Z"
           {| dt_ord := 738535; dt_micro := 0; dt_offset := None |}
           {| dt_ord := 738917; dt_micro := 36000000000;
              dt_offset := Some 0 |}
           eq_refl eq_refl Hmixed).
Defined.

Lemma verdict_is_tri_state_witness :
  verify_repo sample_github sample_b64decode sample_url None
    (Some strict_reviewer) (Some "2024-01-15T00:00:00+00:00") new_client
  = (Ok {| status := "Placeholder"; has_readme := true; has_code := true;
           last_commit := JStr "2024-02-01T10:00:00Z" |},
     {| requests := 3; tools := ["check_placeholder"] |})
  /\ ("Placeholder" = "None" \/ "Placeholder" = "Placeholder"
      \/ "Placeholder" = "Verified").
Proof.
  assert (verify_repo sample_github sample_b64decode sample_url None
            (Some strict_reviewer) (Some "2024-01-15T00:00:00+00:00")
            new_client
          = (Ok {| status := "Placeholder"; has_readme := true;
                   has_code := true;
                   last_commit := JStr "2024-02-01T10:00:00Z" |},
             {| requests := 3; tools := ["check_placeholder"] |})) as Hrun
    by (vm_compute; reflexivity).
  split; [exact Hrun|].
  exact (proj1 (verdict_is_tri_state sample_github sample_b64decode sample_url
                  None (Some strict_reviewer)
                  (Some "2024-01-15T00:00:00+00:00") new_client _ _ Hrun)).
Defined.

Lemma bare_reached :
  reached bare_github "https://github.com/acme/fresh" None bare_facts.
Proof.
  unfold reached. repeat split; try reflexivity.
  exists (JNum 3). by split.
Qed.

Lemma last_commit_falls_back_on_pushed_at_witness :
  reached bare_github "https://github.com/acme/fresh" None bare_facts
  /\ bare_github
       (GITHUB_API +:+ "/repos/" +:+ rf_owner bare_facts +:+ "/"
        +:+ rf_repo bare_facts +:+ "/commits?per_page=1")
       (_get_headers None)
     = Ok {| status_code := 404; json := None |}
  /\ verify_repo bare_github sample_b64decode "https://github.com/acme/fresh"
       None None (Some "2024-01-15T00:00:00+00:00") new_client
     = (Ok {| status := "Placeholder"; has_readme := true; has_code := false;
              last_commit := JStr "2024-03-01T00:00:00Z" |}, new_client)
  /\ last_commit {| status := "Placeholder"; has_readme := true;
                    has_code := false;
                    last_commit := JStr "2024-03-01T00:00:00Z" |}
     = rf_pushed_at bare_facts.
Proof.
  split; [exact bare_reached|]. split; [reflexivity|].
  split; [vm_compute; reflexivity|].
  apply (last_commit_falls_back_on_pushed_at bare_github sample_b64decode
           "https://github.com/acme/fresh" None None
           (Some "2024-01-15T00:00:00+00:00") new_client bare_facts
           {| status_code := 404; json := None |} _ new_client bare_reached).
  - reflexivity.
  - left. cbn. lia.
  - vm_compute. reflexivity.
Defined.

Lemma has_code_is_a_root_extension_test_witness :
  sample_github
    (GITHUB_API +:+ "/repos/" +:+ "acme" +:+ "/" +:+ "model" +:+ "/contents")
    (_get_headers None)
  = Ok {| status_code := 200;
          json := Some (JArr [JObj [("name", JStr "README.md")];
                              JObj [("name", JStr "Train.PY")]]) |}
  /\ Forall2 entry_named
       [JObj [("name", JStr "README.md")]; JObj [("name", JStr "Train.PY")]]
       ["README.md"; "Train.PY"]
  /\ _check_code_files sample_github "acme" "model" None = Ok true.
Proof.
  assert (Forall2 entry_named
            [JObj [("name", JStr "README.md")];
             JObj [("name", JStr "Train.PY")]]
            ["README.md"; "Train.PY"]) as Hnames.
  { repeat constructor; eexists; split; reflexivity. }
  split; [reflexivity|]. split; [exact Hnames|].
  destruct (proj2 (has_code_is_a_root_extension_test sample_github
                     "acme" "model" None _ eq_refl)
              _ _ eq_refl eq_refl Hnames) as (b & Hb & Hiff).
  rewrite Hb. f_equal. apply (proj2 Hiff). exists "Train.PY".
  split; [apply list_elem_of_In; right; left; reflexivity|].
  apply Exists_cons_hd. reflexivity.
Defined.

End VerifierExtras.

